(** * CachimBot: a Telegram bot answering questions over Drive documents

    Shallow embedding of [bottelegram.py].  The Python module has two
    functions, [get_documents_from_drive] and [main]; [main] defines the two
    bot callbacks [start] and [handle_message] as closures.

    Everything the module calls but does not define (the Drive client, the
    Unstructured loaders, the text splitter, the embedding and chat models,
    the Telegram transport) is an oracle: a field of the record [Env].  The
    theorems quantify over every [Env], so they hold whatever these
    collaborators answer and whenever they raise. *)

From Stdlib Require Import Arith Lia List String Ascii.
From stdpp Require Import base option list strings pretty gmap.

Import ListNotations.

(** ** Exceptions and completions *)

(** An instance of Python's [Exception]; [str(e)] is its message.  The
    oracles raise instances of [Exception], the class both [except]
    clauses of the module name. *)
Record exn := Exception { str_exn : string }.

(** How a block of statements completes: normally with a value, by raising,
    or by executing [continue] (only inside the body of the [for] loop). *)
Inductive completion (A : Type) : Type :=
| Normal (a : A)
| Raised (e : exn)
| Continue.

(** What a call to a collaborator does: it returns or it raises. *)
Inductive result (A : Type) : Type :=
| Returns (a : A)
| Raises (e : exn).

Arguments Returns {A} a.
Arguments Raises {A} e.

Arguments Normal {A} a.
Arguments Raised {A} e.
Arguments Continue {A}.

(** ** Data *)

(** A record of the [logging] module: [logger.info], [logger.warning],
    [logger.error]. *)
Inductive level := INFO | WARNING | ERROR.

Record log_record := LogRecord { levelname : level; message : string }.

(** An entry of the folder listing.  The listing is requested with
    [fields="files(id, name, mimeType)"], so an entry carries exactly these
    three string fields. *)
Record DriveFile := {
  file_id : string;
  file_name : string;
  file_mime_type : string
}.

(** The request objects built by [service.files().export_media(...)] and
    [service.files().get_media(...)]. *)
Inductive Request :=
| export_media (fileId mimeType : string)
| get_media (fileId : string).

(** A langchain [Document]: text body and source metadata. *)
Record Document := {
  page_content : string;
  metadata : list (string * string)
}.

(** The three Unstructured loaders, each built on a path. *)
Inductive Loader :=
| UnstructuredPDFLoader (path : string)
| UnstructuredWordDocumentLoader (path : string)
| UnstructuredPowerPointLoader (path : string).

(** A file made by [tempfile.NamedTemporaryFile(delete=False, suffix=...)]
    that exists on disk. *)
Record TempFile := {
  tmp_name : string;
  tmp_suffix : string
}.

Inductive Credentials := service_account (info : gmap string string).

Inductive Service := drive_service (serviceName version : string) (credentials : Credentials).

Record Embeddings := { embeddings_api_key : option string }.

Record ChatModel := { chat_api_key : option string }.

(** The FAISS store: the indexed chunks and the embedding they were made with. *)
Record VectorStore := {
  indexed : list Document;
  embedding_function : Embeddings
}.

Record RetrievalQA := {
  llm : ChatModel;
  retriever : VectorStore
}.

(** An incoming Telegram update that carries a message; the message filter
    only lets text through, so [update.message.text] is a string.  An update
    without a message is the second case of [TelegramUpdate] below. *)
Record Update := { message_text : string }.

(** The callbacks registered with the application.  [handle_message] is a
    closure of [main]: it captures [qa_chain]. *)
Inductive Callback :=
| callback_start
| callback_handle_message (qa_chain : RetrievalQA).

Inductive Handler :=
| CommandHandler (command : string) (callback : Callback)
| MessageHandler_TEXT_not_COMMAND (callback : Callback).

(** ** The world the program acts on *)

Record World := {
  log : list log_record;          (* records emitted through [logger] *)
  tmpfiles : list TempFile;       (* temporary files existing on disk *)
  handlers : list Handler;        (* [app.add_handler] registrations *)
  polling : bool;                 (* [app.run_polling()] was entered *)
  replies : list string           (* texts handed to [reply_text] *)
}.

Definition initial_world : World :=
  {| log := []; tmpfiles := []; handlers := []; polling := false; replies := [] |}.

(** The bot accepts questions once its handlers are registered and polling
    has started. *)
Definition Ready (w : World) : Prop := polling w = true.

(** The four ways the module changes the world. *)
Definition add_log (w : World) (r : log_record) : World :=
  {| log := log w ++ [r]; tmpfiles := tmpfiles w; handlers := handlers w;
     polling := polling w; replies := replies w |}.

Definition add_tmpfile (w : World) (t : TempFile) : World :=
  {| log := log w; tmpfiles := tmpfiles w ++ [t]; handlers := handlers w;
     polling := polling w; replies := replies w |}.

Definition add_reply (w : World) (text : string) : World :=
  {| log := log w; tmpfiles := tmpfiles w; handlers := handlers w;
     polling := polling w; replies := replies w ++ [text] |}.

Definition register (w : World) (h : Handler) : World :=
  {| log := log w; tmpfiles := tmpfiles w; handlers := handlers w ++ [h];
     polling := polling w; replies := replies w |}.

Definition start_polling (w : World) : World :=
  {| log := log w; tmpfiles := tmpfiles w; handlers := handlers w;
     polling := true; replies := replies w |}.

(** ** Collaborators *)

Record Env := {
  (* load_dotenv / os.getenv *)
  BOT_TOKEN : option string;
  OPENAI_API_KEY : option string;
  DRIVE_FOLDER_ID : option string;
  GOOGLE_CREDS : option string;
  (* base64, json, google client *)
  b64decode : option string -> result string;
  decode_utf8 : string -> result string;
  json_loads : string -> result (gmap string string);
  from_service_account_info : gmap string string -> result Credentials;
  build : string -> string -> Credentials -> result Service;
  files_list_execute :
    Service -> string -> string -> result (gmap string (list DriveFile));
  (* os.path.splitext(name)[-1] *)
  splitext_ext : string -> string;
  (* tempfile.NamedTemporaryFile: the name given to the file created when
     [n] temporary files already exist *)
  NamedTemporaryFile : nat -> string -> result string;
  (* MediaIoBaseDownload: [next_chunk r k] is the [k]-th call on request
     [r], the data it writes; the call number [last_chunk r] is the one
     that answers [done = True] *)
  next_chunk : Request -> nat -> result string;
  last_chunk : Request -> nat;
  flush : string -> result unit;
  (* loader.load(), reading the staged payload *)
  load : Loader -> string -> result (list Document);
  (* text splitter, embeddings, vector store, chain *)
  split_documents : nat -> nat -> list Document -> list Document;
  OpenAIEmbeddings : option string -> result Embeddings;
  FAISS_from_documents : list Document -> Embeddings -> result VectorStore;
  ChatOpenAI : option string -> result ChatModel;
  from_chain_type : ChatModel -> VectorStore -> result RetrievalQA;
  ainvoke : RetrievalQA -> gmap string string -> result (gmap string string);
  (* telegram *)
  ApplicationBuilder_build : option string -> result unit;
  reply_text : string -> result unit;
  (* app.run_polling(), from the world in which it is entered: how the call
     ends, and the world it leaves after dispatching updates to the handlers *)
  Application_run_polling : World -> result unit * World
}.

(** ** A state and exception monad *)

Definition M (A : Type) : Type := World -> completion A * World.

Definition ret {A} (a : A) : M A := fun w => (Normal a, w).

Definition bind {A B} (m : M A) (k : A -> M B) : M B :=
  fun w =>
    match m w with
    | (Normal a, w') => k a w'
    | (Raised e, w') => (Raised e, w')
    | (Continue, w') => (Continue, w')
    end.

Notation "'let*' x ':=' m 'in' k" := (bind m (fun x => k))
  (at level 10, x pattern, m at level 100, k at level 200).
Notation "m ';;' k" := (bind m (fun _ => k))
  (at level 100, k at level 200, right associativity).

(** A call to a collaborator completes normally or by raising. *)
Definition completion_of {A} (r : result A) : completion A :=
  match r with
  | Returns a => Normal a
  | Raises e => Raised e
  end.

Definition call {A} (r : result A) : M A := fun w => (completion_of r, w).

(** The [continue] statement. *)
Definition continue_ {A} : M A := fun w => (Continue, w).

(** [try: m except Exception as e: h e]. *)
Definition try_except {A} (m : M A) (h : exn -> M A) : M A :=
  fun w =>
    match m w with
    | (Raised e, w') => h e w'
    | r => r
    end.

(** [for x in xs: body], with [s] the variables the loop carries.  A
    [continue] in the body moves on to the next element; an exception that
    leaves the body leaves the loop. *)
Fixpoint for_ {A S} (xs : list A) (body : A -> S -> M S) (s : S) : M S :=
  match xs with
  | [] => ret s
  | x :: xs' =>
      fun w =>
        match body x s w with
        | (Normal s', w') => for_ xs' body s' w'
        | (Continue, w') => for_ xs' body s w'
        | (Raised e, w') => (Raised e, w')
        end
  end.

Definition logger (l : level) (s : string) : M unit :=
  fun w => (Normal tt, add_log w (LogRecord l s)).

Definition logger_info := logger INFO.
Definition logger_warning := logger WARNING.
Definition logger_error := logger ERROR.

(** [str(x)] of a value read with [os.getenv]. *)
Definition str_getenv (x : option string) : string :=
  match x with
  | Some s => s
  | None => "None"
  end.

(** ** get_documents_from_drive *)

Definition GOOGLE_DOCUMENT := "application/vnd.google-apps.document".
Definition GOOGLE_PRESENTATION := "application/vnd.google-apps.presentation".
Definition GOOGLE_SPREADSHEET := "application/vnd.google-apps.spreadsheet".
Definition DOCX_MIME :=
  "application/vnd.openxmlformats-officedocument.wordprocessingml.document".
Definition PPTX_MIME :=
  "application/vnd.openxmlformats-officedocument.presentationml.presentation".

(** Lines 59-72: the request and the extension, by mimetype. *)
Definition choose_request (env : Env) (file : DriveFile) : M (Request * string) :=
  if String.eqb (file_mime_type file) GOOGLE_DOCUMENT then
    ret (export_media (file_id file) DOCX_MIME, ".docx")
  else if String.eqb (file_mime_type file) GOOGLE_PRESENTATION then
    ret (export_media (file_id file) PPTX_MIME, ".pptx")
  else if String.eqb (file_mime_type file) GOOGLE_SPREADSHEET then
    logger_warning ("📄 Archivo de hoja de cálculo omitido: " +:+ file_name file);;
    continue_
  else
    ret (get_media (file_id file), splitext_ext env (file_name file)).

(** Line 74: the temporary file is created and stays on disk
    ([delete=False]); nothing in the module closes or removes it. *)
Definition tempfile_NamedTemporaryFile (env : Env) (suffix : string) : M string :=
  fun w =>
    match NamedTemporaryFile env (length (tmpfiles w)) suffix with
    | Returns name =>
        (Normal name, add_tmpfile w {| tmp_name := name; tmp_suffix := suffix |})
    | Raises e => (Raised e, w)
    end.

(** Lines 76-78: [while not done: status, done = downloader.next_chunk()].
    [k] calls were made, [more] further calls follow this one. *)
Fixpoint download_loop (env : Env) (request : Request) (k more : nat)
    (written : string) : M string :=
  let* data := call (next_chunk env request k) in
  match more with
  | O => ret (written +:+ data)
  | S more' => download_loop env request (S k) more' (written +:+ data)
  end.

(** Lines 74-79: the payload is staged in a fresh temporary file. *)
Definition stage (env : Env) (request : Request) (extension : string)
    : M (string * string) :=
  let* fh := tempfile_NamedTemporaryFile env extension in
  let* payload := download_loop env request 0 (last_chunk env request) "" in
  call (flush env fh);;
  ret (fh, payload).

(** Lines 82-90: the loader, by extension. *)
Definition choose_loader (name extension fh : string) : M Loader :=
  if String.eqb extension ".pdf" then ret (UnstructuredPDFLoader fh)
  else if String.eqb extension ".docx" then ret (UnstructuredWordDocumentLoader fh)
  else if String.eqb extension ".pptx" then ret (UnstructuredPowerPointLoader fh)
  else
    logger_warning ("📄 Tipo de archivo no compatible: " +:+ name);;
    continue_.

(** Lines 58-93, the body of [try]. *)
Definition try_body (env : Env) (file : DriveFile) (documents : list Document)
    : M (list Document) :=
  let* (request, extension) := choose_request env file in
  let* (fh, payload) := stage env request extension in
  let* loader := choose_loader (file_name file) extension fh in
  let* docs := call (load env loader payload) in
  ret (documents ++ docs).

(** Lines 95-96, the [except Exception as e] clause. *)
Definition except_body (file : DriveFile) (documents : list Document) (e : exn)
    : M (list Document) :=
  logger_error ("❌ Error al procesar " +:+ file_name file +:+ ": " +:+ str_exn e);;
  ret documents.

(** Lines 53-96, the body of [for file in files]. *)
Definition loop_body (env : Env) (file : DriveFile) (documents : list Document)
    : M (list Document) :=
  try_except (try_body env file documents) (except_body file documents).

Definition get_documents_from_drive (env : Env) (folder_id : option string)
    : M (list Document) :=
  let* decoded := call (b64decode env (GOOGLE_CREDS env)) in
  let* creds_json := call (decode_utf8 env decoded) in
  let* creds_dict := call (json_loads env creds_json) in
  let* creds := call (from_service_account_info env creds_dict) in
  let* service := call (build env "drive" "v3" creds) in
  let query := "'" +:+ str_getenv folder_id +:+ "' in parents and trashed = false" in
  let* results := call (files_list_execute env service query "files(id, name, mimeType)") in
  let files := default [] (results !! "files") in
  for_ files (loop_body env) [].

(** ** main *)

Definition add_handler (h : Handler) : M unit :=
  fun w => (Normal tt, register w h).

(** Line 149, [app.run_polling()].  The world records that the call was
    entered; the call then blocks while the application dispatches updates
    to the handlers, and it returns or raises. *)
Definition run_polling (env : Env) : M unit :=
  fun w =>
    let (r, w') := Application_run_polling env (start_polling w) in
    (completion_of r, w').

(** [await update.message.reply_text(text)]: the text is handed to the
    transport, which may raise. *)
Definition update_message_reply_text (env : Env) (text : string) : M unit :=
  fun w => (completion_of (reply_text env text), add_reply w text).

Definition start (env : Env) (update : Update) : M unit :=
  update_message_reply_text env
    "👋 Hola, soy tu bot académico. Pregúntame sobre cualquier tema relacionado con los documentos cargados.".

Definition handle_message (env : Env) (qa_chain : RetrievalQA) (update : Update)
    : M unit :=
  let user_question := message_text update in
  logger_info ("🧠 Pregunta recibida: " +:+ user_question);;
  try_except
    (let* result := call (ainvoke env qa_chain {["query" := user_question]}) in
     let response_text := default "No encontré información." (result !! "result") in
     update_message_reply_text env response_text)
    (fun e =>
       logger_error ("❌ Error al responder: " +:+ str_exn e);;
       update_message_reply_text env "Ocurrió un error al procesar tu pregunta.").

Definition main (env : Env) : M unit :=
  logger_info "🔍 Cargando documentos desde Google Drive...";;
  let* documents := get_documents_from_drive env (DRIVE_FOLDER_ID env) in
  logger_info ("📄 Total de documentos cargados: " +:+ pretty (length documents));;
  match documents with
  | [] =>
      logger_error "❌ No se pudo cargar ningún documento válido. El bot no puede continuar."
  | _ :: _ =>
      let texts := split_documents env 1000 100 documents in
      match texts with
      | [] => logger_error "❌ No se pudo dividir el contenido en fragmentos."
      | _ :: _ =>
          let* embedding := call (OpenAIEmbeddings env (OPENAI_API_KEY env)) in
          let* vectorstore := call (FAISS_from_documents env texts embedding) in
          let* chat := call (ChatOpenAI env (OPENAI_API_KEY env)) in
          let* qa_chain := call (from_chain_type env chat vectorstore) in
          call (ApplicationBuilder_build env (BOT_TOKEN env));;
          add_handler (CommandHandler "start" callback_start);;
          add_handler (MessageHandler_TEXT_not_COMMAND (callback_handle_message qa_chain));;
          logger_info "✅ Bot iniciado correctamente.";;
          run_polling env
      end
  end.

(** ** The chunker *)

Module Chunker.

Section Windows.
Context {A : Type}.

(** Modelled from the spec: the body of langchain's
    [RecursiveCharacterTextSplitter], which [main] builds and calls but the
    module does not define.  Section 4.2: the chunker "greedily walks [the]
    body producing chunks of length chunk_size, advancing the window by
    chunk_size - chunk_overlap each step, until the whole body is covered;
    the final chunk may be shorter than chunk_size".  [fuel] bounds the
    number of windows. *)
Fixpoint walk (fuel chunk_size step : nat) (body : list A) : list (list A) :=
  match fuel with
  | O => []
  | S fuel' =>
      if length body <=? chunk_size then [body]
      else take chunk_size body :: walk fuel' chunk_size step (drop step body)
  end.

(** Modelled from the spec: the chunks of one body, missing with the
    splitter class.  Section 4.2: "Degenerate input (empty document) yields
    zero chunks, not an error". *)
Definition windows (chunk_size chunk_overlap : nat) (body : list A) : list (list A) :=
  match body with
  | [] => []
  | _ :: _ => walk (length body) chunk_size (chunk_size - chunk_overlap) body
  end.

(** Modelled from the spec: the same walk of section 4.2 as a relation
    between a non-empty body and its chunks, one rule for the final chunk
    and one for a window that is followed by another. *)
Inductive Walk (chunk_size chunk_overlap : nat) : list A -> list (list A) -> Prop :=
| Walk_final body :
    length body <= chunk_size ->
    Walk chunk_size chunk_overlap body [body]
| Walk_advance body rest :
    chunk_size < length body ->
    Walk chunk_size chunk_overlap (drop (chunk_size - chunk_overlap) body) rest ->
    Walk chunk_size chunk_overlap body (take chunk_size body :: rest).

(** Modelled from the spec: section 4.2's split of one body as a relation;
    the empty body has no chunk. *)
Inductive Split (chunk_size chunk_overlap : nat) : list A -> list (list A) -> Prop :=
| Split_empty : Split chunk_size chunk_overlap [] []
| Split_walk body chunks :
    body <> [] ->
    Walk chunk_size chunk_overlap body chunks ->
    Split chunk_size chunk_overlap body chunks.
End Windows.

(** Modelled from the spec: a chunk of a document, missing with the splitter
    class.  Section 4.2: "Preserves source metadata unchanged on every chunk
    derived from a document". *)
Definition chunk_of (doc : Document) (chars : list ascii) : Document :=
  {| page_content := string_of_list_ascii chars; metadata := metadata doc |}.

(** Modelled from the spec: [split_text] of the missing splitter class, the
    chunks of a body of text (section 4.2). *)
Definition split_text (chunk_size chunk_overlap : nat) (body : string) : list string :=
  string_of_list_ascii <$> windows chunk_size chunk_overlap (list_ascii_of_string body).

(** Modelled from the spec: [split_documents] of the missing splitter class,
    contract [split(documents, chunk_size, chunk_overlap)] of section 4.2:
    the chunks of each document, in order. *)
Definition split_documents (chunk_size chunk_overlap : nat) (documents : list Document)
    : list Document :=
  flat_map
    (fun doc =>
       chunk_of doc <$>
         windows chunk_size chunk_overlap (list_ascii_of_string (page_content doc)))
    documents.

(** Modelled from the spec: the contract of section 4.2 as a relation between
    the documents and the chunk sequence, in place of the missing class. *)
Inductive SplitDocuments (chunk_size chunk_overlap : nat)
    : list Document -> list Document -> Prop :=
| SplitDocuments_nil : SplitDocuments chunk_size chunk_overlap [] []
| SplitDocuments_cons doc documents chunks rest :
    Split chunk_size chunk_overlap (list_ascii_of_string (page_content doc)) chunks ->
    SplitDocuments chunk_size chunk_overlap documents rest ->
    SplitDocuments chunk_size chunk_overlap (doc :: documents)
      ((chunk_of doc <$> chunks) ++ rest).

(** Modelled from the spec: the ceiling of a quotient, for the count of
    section 8. *)
Definition ceil_div (a b : nat) : nat := (a + b - 1) / b.

(** Modelled from the spec: the count of section 8,
    [ceil(max(L - O, 0) / (S - O))].  Subtraction on [nat] stops at zero, so
    [L - O] is [max(L - O, 0)]. *)
Definition chunk_count (L chunk_size chunk_overlap : nat) : nat :=
  ceil_div (L - chunk_overlap) (chunk_size - chunk_overlap).

End Chunker.

(** ** A concrete environment *)

Module Demo.

(** [posixpath.splitext(p)[-1]]: the extension starts at the last dot of the
    last path component, leading dots of the component apart. *)
Fixpoint rfind (c : ascii) (s : list ascii) (i : nat) (found : option nat) : option nat :=
  match s with
  | [] => found
  | a :: s' => rfind c s' (S i) (if Ascii.eqb a c then Some i else found)
  end.

Definition posix_splitext_ext (p : string) : string :=
  let chars := list_ascii_of_string p in
  let filenameIndex := from_option S 0 (rfind "/"%char chars 0 None) in
  match rfind "."%char chars 0 None with
  | Some dotIndex =>
      if existsb (fun a => negb (Ascii.eqb a "."%char))
           (take (dotIndex - filenameIndex) (drop filenameIndex chars))
      then string_of_list_ascii (drop dotIndex chars)
      else ""
  | None => ""
  end.

Definition apuntes : DriveFile :=
  {| file_id := "1"; file_name := "Apuntes"; file_mime_type := GOOGLE_DOCUMENT |}.
Definition notas : DriveFile :=
  {| file_id := "3"; file_name := "Notas"; file_mime_type := GOOGLE_SPREADSHEET |}.
Definition silabo : DriveFile :=
  {| file_id := "4"; file_name := "silabo.pdf"; file_mime_type := "application/pdf" |}.
Definition roto : DriveFile :=
  {| file_id := "5"; file_name := "roto.pdf"; file_mime_type := "application/pdf" |}.
Definition leeme : DriveFile :=
  {| file_id := "6"; file_name := "leeme.txt"; file_mime_type := "text/plain" |}.
Definition vacio : DriveFile :=
  {| file_id := "7"; file_name := "vacio.pdf"; file_mime_type := "application/pdf" |}.

Definition request_id (r : Request) : string :=
  match r with
  | export_media i _ => i
  | get_media i => i
  end.

Definition loader_path (l : Loader) : string :=
  match l with
  | UnstructuredPDFLoader p => p
  | UnstructuredWordDocumentLoader p => p
  | UnstructuredPowerPointLoader p => p
  end.

(** A store whose payload for a file is its id; the extractors reject the
    payload of [roto] and find no text in the payload of [vacio]. *)
Definition demo_load (l : Loader) (payload : string) : result (list Document) :=
  if String.eqb payload "5" then Raises (Exception "file is damaged")
  else if String.eqb payload "7" then
    Returns [{| page_content := ""; metadata := [("source", loader_path l)] |}]
  else
    Returns [{| page_content := "texto de " +:+ payload;
               metadata := [("source", loader_path l)] |}].

(** A splitter for short documents: a document with text is its own chunk,
    a document without text has none. *)
Definition demo_split_documents (chunk_size chunk_overlap : nat)
    (documents : list Document) : list Document :=
  List.filter (fun d => negb (String.eqb (page_content d) "")) documents.

Definition demo_ainvoke (chain : RetrievalQA) (inputs : gmap string string)
    : result (gmap string string) :=
  match inputs !! "query" with
  | Some q =>
      if String.eqb q "capital de Francia" then
        Returns (<["result" := "Paris"]> inputs)
      else if String.eqb q "sin campo" then Returns inputs
      else Raises (Exception "rate limit")
  | None => Raises (Exception "missing input")
  end.

Definition env (creds : option string) (files : list DriveFile) : Env :=
  {| BOT_TOKEN := Some "token";
     OPENAI_API_KEY := Some "sk";
     DRIVE_FOLDER_ID := Some "folder";
     GOOGLE_CREDS := creds;
     b64decode := fun x =>
       match x with
       | Some s => Returns s
       | None => Raises (Exception "argument should be a bytes-like object")
       end;
     decode_utf8 := Returns;
     json_loads := fun _ => Returns ∅;
     from_service_account_info := fun d => Returns (service_account d);
     build := fun n v c => Returns (drive_service n v c);
     files_list_execute := fun _ _ _ => Returns {["files" := files]};
     splitext_ext := posix_splitext_ext;
     NamedTemporaryFile := fun n suffix => Returns ("/tmp/tmp" +:+ pretty n +:+ suffix);
     next_chunk := fun r _ => Returns (request_id r);
     last_chunk := fun _ => 0;
     flush := fun _ => Returns tt;
     load := demo_load;
     split_documents := demo_split_documents;
     OpenAIEmbeddings := fun k => Returns {| embeddings_api_key := k |};
     FAISS_from_documents := fun texts e =>
       Returns {| indexed := texts; embedding_function := e |};
     ChatOpenAI := fun k => Returns {| chat_api_key := k |};
     from_chain_type := fun m v => Returns {| llm := m; retriever := v |};
     ainvoke := demo_ainvoke;
     ApplicationBuilder_build := fun _ => Returns tt;
     reply_text := fun _ => Returns tt;
     Application_run_polling := fun w => (Returns tt, w) |}.

Definition qa_chain : RetrievalQA :=
  {| llm := {| chat_api_key := Some "sk" |};
     retriever := {| indexed := []; embedding_function := {| embeddings_api_key := Some "sk" |} |} |}.

End Demo.

(** ** Environments with a failing collaborator *)

Module Faulty.

(** [env] with another transport. *)
Definition with_reply_text (env : Env) (f : string -> result unit) : Env :=
  {| BOT_TOKEN := BOT_TOKEN env;
     OPENAI_API_KEY := OPENAI_API_KEY env;
     DRIVE_FOLDER_ID := DRIVE_FOLDER_ID env;
     GOOGLE_CREDS := GOOGLE_CREDS env;
     b64decode := b64decode env;
     decode_utf8 := decode_utf8 env;
     json_loads := json_loads env;
     from_service_account_info := from_service_account_info env;
     build := build env;
     files_list_execute := files_list_execute env;
     splitext_ext := splitext_ext env;
     NamedTemporaryFile := NamedTemporaryFile env;
     next_chunk := next_chunk env;
     last_chunk := last_chunk env;
     flush := flush env;
     load := load env;
     split_documents := split_documents env;
     OpenAIEmbeddings := OpenAIEmbeddings env;
     FAISS_from_documents := FAISS_from_documents env;
     ChatOpenAI := ChatOpenAI env;
     from_chain_type := from_chain_type env;
     ainvoke := ainvoke env;
     ApplicationBuilder_build := ApplicationBuilder_build env;
     reply_text := f;
     Application_run_polling := Application_run_polling env |}.

(** [env] with another vector store constructor. *)
Definition with_FAISS_from_documents (env : Env)
    (f : list Document -> Embeddings -> result VectorStore) : Env :=
  {| BOT_TOKEN := BOT_TOKEN env;
     OPENAI_API_KEY := OPENAI_API_KEY env;
     DRIVE_FOLDER_ID := DRIVE_FOLDER_ID env;
     GOOGLE_CREDS := GOOGLE_CREDS env;
     b64decode := b64decode env;
     decode_utf8 := decode_utf8 env;
     json_loads := json_loads env;
     from_service_account_info := from_service_account_info env;
     build := build env;
     files_list_execute := files_list_execute env;
     splitext_ext := splitext_ext env;
     NamedTemporaryFile := NamedTemporaryFile env;
     next_chunk := next_chunk env;
     last_chunk := last_chunk env;
     flush := flush env;
     load := load env;
     split_documents := split_documents env;
     OpenAIEmbeddings := OpenAIEmbeddings env;
     FAISS_from_documents := f;
     ChatOpenAI := ChatOpenAI env;
     from_chain_type := from_chain_type env;
     ainvoke := ainvoke env;
     ApplicationBuilder_build := ApplicationBuilder_build env;
     reply_text := reply_text env;
     Application_run_polling := Application_run_polling env |}.

(** A transport that refuses the answer "Paris" and takes any other text. *)
Definition refuses_Paris (text : string) : result unit :=
  if String.eqb text "Paris" then Raises (Exception "Bad Request") else Returns tt.

(** A transport that is down. *)
Definition transport_down (text : string) : result unit :=
  Raises (Exception "Timed out").

(** An embedding service that is down. *)
Definition embeddings_down (texts : list Document) (e : Embeddings) : result VectorStore :=
  Raises (Exception "Connection error").

End Faulty.

(** ** An environment with a failing download *)

Module FaultyStore.

(** [env] with another downloader. *)
Definition with_next_chunk (env : Env) (f : Request -> nat -> result string)
    (last : Request -> nat) : Env :=
  {| BOT_TOKEN := BOT_TOKEN env;
     OPENAI_API_KEY := OPENAI_API_KEY env;
     DRIVE_FOLDER_ID := DRIVE_FOLDER_ID env;
     GOOGLE_CREDS := GOOGLE_CREDS env;
     b64decode := b64decode env;
     decode_utf8 := decode_utf8 env;
     json_loads := json_loads env;
     from_service_account_info := from_service_account_info env;
     build := build env;
     files_list_execute := files_list_execute env;
     splitext_ext := splitext_ext env;
     NamedTemporaryFile := NamedTemporaryFile env;
     next_chunk := f;
     last_chunk := last;
     flush := flush env;
     load := load env;
     split_documents := split_documents env;
     OpenAIEmbeddings := OpenAIEmbeddings env;
     FAISS_from_documents := FAISS_from_documents env;
     ChatOpenAI := ChatOpenAI env;
     from_chain_type := from_chain_type env;
     ainvoke := ainvoke env;
     ApplicationBuilder_build := ApplicationBuilder_build env;
     reply_text := reply_text env;
     Application_run_polling := Application_run_polling env |}.

(** A download of three chunks whose connection drops at the second. *)
Definition drops_at_second (r : Request) (k : nat) : result string :=
  match k with
  | 0 => Returns "%PDF"
  | _ => Raises (Exception "Connection reset")
  end.

End FaultyStore.

(** ** The message handler, on any update *)

(** What the application calls the message handler with.  The filter
    [filters.TEXT & ~filters.COMMAND] also lets through an update whose text
    is in an edited message or in a channel post, and for such an update
    [update.message] is [None]. *)
Inductive TelegramUpdate :=
| update_with_message (update : Update)
| update_without_message.

(** Lines 134-143 on any update.  Line 135 reads [update.message.text]
    before the [try]: without a message this read raises, and nothing of
    the rest runs; with a message the rest is [handle_message]. *)
Definition handle_message_callback (env : Env) (qa_chain : RetrievalQA)
    (u : TelegramUpdate) : M unit :=
  match u with
  | update_with_message update => handle_message env qa_chain update
  | update_without_message =>
      call (Raises (Exception "'NoneType' object has no attribute 'text'"))
  end.

(** ** A store that sends a file in three chunks *)

Module ChunkedStore.

Definition three_chunks (r : Request) (k : nat) : result string :=
  Returns (Demo.request_id r +:+ "." +:+ pretty k +:+ ";").

(** Extractors that tell which loader read which payload. *)
Definition load_by_kind (l : Loader) (payload : string) : result (list Document) :=
  Returns
    [{| page_content := payload;
        metadata :=
          [("loader",
            match l with
            | UnstructuredPDFLoader _ => "pdf"
            | UnstructuredWordDocumentLoader _ => "word"
            | UnstructuredPowerPointLoader _ => "powerpoint"
            end);
           ("source", Demo.loader_path l)] |}].

Definition env : Env :=
  {| BOT_TOKEN := Some "token";
     OPENAI_API_KEY := Some "sk";
     DRIVE_FOLDER_ID := Some "folder";
     GOOGLE_CREDS := Some "e30=";
     b64decode := b64decode (Demo.env None []);
     decode_utf8 := decode_utf8 (Demo.env None []);
     json_loads := json_loads (Demo.env None []);
     from_service_account_info := from_service_account_info (Demo.env None []);
     build := build (Demo.env None []);
     files_list_execute := files_list_execute (Demo.env None []);
     splitext_ext := Demo.posix_splitext_ext;
     NamedTemporaryFile := NamedTemporaryFile (Demo.env None []);
     next_chunk := three_chunks;
     last_chunk := fun _ => 2;
     flush := fun _ => Returns tt;
     load := load_by_kind;
     split_documents := Demo.demo_split_documents;
     OpenAIEmbeddings := OpenAIEmbeddings (Demo.env None []);
     FAISS_from_documents := FAISS_from_documents (Demo.env None []);
     ChatOpenAI := ChatOpenAI (Demo.env None []);
     from_chain_type := from_chain_type (Demo.env None []);
     ainvoke := Demo.demo_ainvoke;
     ApplicationBuilder_build := fun _ => Returns tt;
     reply_text := fun _ => Returns tt;
     Application_run_polling := fun w => (Returns tt, w) |}.

End ChunkedStore.

(** ** Predicates of the statements *)

(** [w'] is [w] after some logging and some staging: records and temporary
    files were added at the end, nothing else changed. *)
Definition extends (w w' : World) : Prop :=
  (exists l, log w' = log w ++ l) /\
  (exists t, tmpfiles w' = tmpfiles w ++ t) /\
  handlers w' = handlers w /\
  polling w' = polling w /\
  replies w' = replies w.

Definition grows {A} (m : M A) : Prop := forall w, extends w (snd (m w)).

(** A computation that cannot complete by raising. *)
Definition catches {A} (m : M A) : Prop :=
  forall w e w', m w <> (Raised e, w').

(** A computation that creates and removes no temporary file. *)
Definition keeps_tmpfiles {A} (m : M A) : Prop :=
  forall w, tmpfiles (snd (m w)) = tmpfiles w.

(** Release of the staging file before the loop moves on: when the body of
    the loop is over, the temporary files on disk are those there were
    before it. *)
Definition releases_staging (env : Env) : Prop :=
  forall file documents w,
    tmpfiles (snd (loop_body env file documents w)) = tmpfiles w.

(** Every document the loader returns has a non-empty body. *)
Definition output_bodies_non_empty (env : Env) : Prop :=
  forall folder_id w documents w',
    get_documents_from_drive env folder_id w = (Normal documents, w') ->
    Forall (fun d => page_content d <> "") documents.

(** Lines 42-48 return: the six calls made before the loop all return, the
    last one with the listing [results]. *)
Definition setup_returns (env : Env) (folder_id : option string)
    (results : gmap string (list DriveFile)) : Prop :=
  exists decoded creds_json creds_dict creds service,
    b64decode env (GOOGLE_CREDS env) = Returns decoded /\
    decode_utf8 env decoded = Returns creds_json /\
    json_loads env creds_json = Returns creds_dict /\
    from_service_account_info env creds_dict = Returns creds /\
    build env "drive" "v3" creds = Returns service /\
    files_list_execute env service
      ("'" +:+ str_getenv folder_id +:+ "' in parents and trashed = false")
      "files(id, name, mimeType)" = Returns results.

(** Lines 42-48 raise [e]: one of the six calls made before the loop does,
    those before it having returned. *)
Inductive setup_raises (env : Env) (folder_id : option string) (e : exn) : Prop :=
| raises_b64decode :
    b64decode env (GOOGLE_CREDS env) = Raises e ->
    setup_raises env folder_id e
| raises_decode decoded :
    b64decode env (GOOGLE_CREDS env) = Returns decoded ->
    decode_utf8 env decoded = Raises e ->
    setup_raises env folder_id e
| raises_json_loads decoded creds_json :
    b64decode env (GOOGLE_CREDS env) = Returns decoded ->
    decode_utf8 env decoded = Returns creds_json ->
    json_loads env creds_json = Raises e ->
    setup_raises env folder_id e
| raises_from_service_account_info decoded creds_json creds_dict :
    b64decode env (GOOGLE_CREDS env) = Returns decoded ->
    decode_utf8 env decoded = Returns creds_json ->
    json_loads env creds_json = Returns creds_dict ->
    from_service_account_info env creds_dict = Raises e ->
    setup_raises env folder_id e
| raises_build decoded creds_json creds_dict creds :
    b64decode env (GOOGLE_CREDS env) = Returns decoded ->
    decode_utf8 env decoded = Returns creds_json ->
    json_loads env creds_json = Returns creds_dict ->
    from_service_account_info env creds_dict = Returns creds ->
    build env "drive" "v3" creds = Raises e ->
    setup_raises env folder_id e
| raises_list decoded creds_json creds_dict creds service :
    b64decode env (GOOGLE_CREDS env) = Returns decoded ->
    decode_utf8 env decoded = Returns creds_json ->
    json_loads env creds_json = Returns creds_dict ->
    from_service_account_info env creds_dict = Returns creds ->
    build env "drive" "v3" creds = Returns service ->
    files_list_execute env service
      ("'" +:+ str_getenv folder_id +:+ "' in parents and trashed = false")
      "files(id, name, mimeType)" = Raises e ->
    setup_raises env folder_id e.

(** When the response of the chain has no "result" field, the reply is the
    text [fallback]. *)
Definition falls_back_to (env : Env) (fallback : string) : Prop :=
  forall qa_chain update w r,
    ainvoke env qa_chain {["query" := message_text update]} = Returns r ->
    r !! "result" = None ->
    exists extra,
      replies (snd (handle_message env qa_chain update w)) =
        replies w ++ fallback :: extra.

(** Lines 120-145 return: the embedding, the vector store, the chat model,
    the chain and the application are all built, the chain being
    [qa_chain]. *)
Definition index_build_returns (env : Env) (texts : list Document)
    (qa_chain : RetrievalQA) : Prop :=
  exists embedding vectorstore chat,
    OpenAIEmbeddings env (OPENAI_API_KEY env) = Returns embedding /\
    FAISS_from_documents env texts embedding = Returns vectorstore /\
    ChatOpenAI env (OPENAI_API_KEY env) = Returns chat /\
    from_chain_type env chat vectorstore = Returns qa_chain /\
    ApplicationBuilder_build env (BOT_TOKEN env) = Returns tt.

(** Lines 120-145 raise [e]: one of the five constructions does, those
    before it having returned. *)
Inductive index_build_raises (env : Env) (texts : list Document) (e : exn) : Prop :=
| raises_OpenAIEmbeddings :
    OpenAIEmbeddings env (OPENAI_API_KEY env) = Raises e ->
    index_build_raises env texts e
| raises_FAISS embedding :
    OpenAIEmbeddings env (OPENAI_API_KEY env) = Returns embedding ->
    FAISS_from_documents env texts embedding = Raises e ->
    index_build_raises env texts e
| raises_ChatOpenAI embedding vectorstore :
    OpenAIEmbeddings env (OPENAI_API_KEY env) = Returns embedding ->
    FAISS_from_documents env texts embedding = Returns vectorstore ->
    ChatOpenAI env (OPENAI_API_KEY env) = Raises e ->
    index_build_raises env texts e
| raises_from_chain_type embedding vectorstore chat :
    OpenAIEmbeddings env (OPENAI_API_KEY env) = Returns embedding ->
    FAISS_from_documents env texts embedding = Returns vectorstore ->
    ChatOpenAI env (OPENAI_API_KEY env) = Returns chat ->
    from_chain_type env chat vectorstore = Raises e ->
    index_build_raises env texts e
| raises_ApplicationBuilder embedding vectorstore chat qa_chain :
    OpenAIEmbeddings env (OPENAI_API_KEY env) = Returns embedding ->
    FAISS_from_documents env texts embedding = Returns vectorstore ->
    ChatOpenAI env (OPENAI_API_KEY env) = Returns chat ->
    from_chain_type env chat vectorstore = Returns qa_chain ->
    ApplicationBuilder_build env (BOT_TOKEN env) = Raises e ->
    index_build_raises env texts e.

(** The two handlers [main] registers, in the order of lines 146-147. *)
Definition bot_handlers (qa_chain : RetrievalQA) : list Handler :=
  [CommandHandler "start" callback_start;
   MessageHandler_TEXT_not_COMMAND (callback_handle_message qa_chain)].

(** How the body of the loop ends for a file that was staged and whose
    loader was chosen: the documents of [loader.load()] are appended, or its
    exception is logged with the name of the file. *)
Definition extraction (env : Env) (file : DriveFile) (documents : list Document)
    (loader : Loader) (payload : string) (w : World)
    : completion (list Document) * World :=
  match load env loader payload with
  | Returns docs => (Normal (documents ++ docs), w)
  | Raises e =>
      (Normal documents,
       add_log w
         (LogRecord ERROR
            ("❌ Error al procesar " +:+ file_name file +:+ ": " +:+ str_exn e)))
  end.

(** A computation that logs nothing, unless it ends in [continue] and then
    logs one WARNING record. *)
Definition logs_only_to_skip {A} (m : M A) : Prop :=
  forall w,
    match m w with
    | (Continue, w') => exists r, log w' = log w ++ [r] /\ levelname r = WARNING
    | (_, w') => log w' = log w
    end.

(** A computation that logs nothing and does not end in [continue]. *)
Definition silent {A} (m : M A) : Prop :=
  forall w, log (snd (m w)) = log w /\ fst (m w) <> Continue.

(** What the temporary file holds when the chunks [datas] were written to
    it in the order of the calls. *)
Definition payload_of (datas : list string) : string :=
  fold_left String.append datas "".

(** Lines 74-79 return for [request]: the temporary file [fh] is created,
    the calls of [next_chunk] on [request], up to the one that answers
    [done], return the chunks [datas], and the flush returns. *)
Definition staged (env : Env) (request : Request) (extension : string) (w : World)
    (fh : string) (datas : list string) : Prop :=
  NamedTemporaryFile env (length (tmpfiles w)) extension = Returns fh /\
  length datas = S (last_chunk env request) /\
  (forall i data, datas !! i = Some data -> next_chunk env request i = Returns data) /\
  flush env fh = Returns tt.

(** What one listed file adds to the output, and the world it leaves: the
    documents that the loader chosen for the file returns on the payload
    staged for the file; nothing when the file is skipped; nothing, and an
    ERROR record, when its processing raises. *)
Inductive contributes (env : Env) (file : DriveFile) (w : World)
    : list Document -> World -> Prop :=
| contributes_extracted request extension w1 fh payload w2 loader w3 docs :
    choose_request env file w = (Normal (request, extension), w1) ->
    stage env request extension w1 = (Normal (fh, payload), w2) ->
    choose_loader (file_name file) extension fh w2 = (Normal loader, w3) ->
    load env loader payload = Returns docs ->
    contributes env file w docs w3
| contributes_skipped w1 :
    try_body env file [] w = (Continue, w1) ->
    contributes env file w [] w1
| contributes_failed e w1 :
    try_body env file [] w = (Raised e, w1) ->
    contributes env file w []
      (add_log w1
         (LogRecord ERROR
            ("❌ Error al procesar " +:+ file_name file +:+ ": " +:+ str_exn e))).

(** What a listing adds to the output: what each of its files contributes,
    once each, in the order of the listing. *)
Inductive gathers (env : Env) : list DriveFile -> World -> list Document -> World -> Prop :=
| gathers_nil w : gathers env [] w [] w
| gathers_cons file files w docs w1 rest w2 :
    contributes env file w docs w1 ->
    gathers env files w1 rest w2 ->
    gathers env (file :: files) w (docs ++ rest) w2.

(** * Theorems *)

(** ** The monad *)

Lemma bind_Normal {A B} (m : M A) (k : A -> M B) w a w1 :
  m w = (Normal a, w1) -> bind m k w = k a w1.
Proof. intros H. unfold bind. now rewrite H. Qed.

Lemma bind_Raised {A B} (m : M A) (k : A -> M B) w e w1 :
  m w = (Raised e, w1) -> bind m k w = (Raised e, w1).
Proof. intros H. unfold bind. now rewrite H. Qed.

Lemma bind_Continue {A B} (m : M A) (k : A -> M B) w w1 :
  m w = (Continue, w1) -> bind m k w = (Continue, w1).
Proof. intros H. unfold bind. now rewrite H. Qed.

Lemma for_app {A S} (xs ys : list A) (body : A -> S -> M S) s w s1 w1 :
  for_ xs body s w = (Normal s1, w1) ->
  for_ (xs ++ ys) body s w = for_ ys body s1 w1.
Proof.
  revert s w. induction xs as [|x xs IH]; intros s w H; simpl in *.
  - unfold ret in H. now inversion H.
  - destruct (body x s w) as [[s'|e|] w']; try discriminate; now apply IH.
Qed.

(** ** Frames: what the loader leaves alone *)

Lemma extends_refl w : extends w w.
Proof.
  repeat split; try reflexivity; exists []; now rewrite app_nil_r.
Qed.

Lemma extends_trans w1 w2 w3 : extends w1 w2 -> extends w2 w3 -> extends w1 w3.
Proof.
  intros ([l1 Hl1] & [t1 Ht1] & Hh1 & Hp1 & Hr1) ([l2 Hl2] & [t2 Ht2] & Hh2 & Hp2 & Hr2).
  repeat split; try congruence.
  - exists (l1 ++ l2). now rewrite Hl2, Hl1, app_assoc.
  - exists (t1 ++ t2). now rewrite Ht2, Ht1, app_assoc.
Qed.

Lemma extends_add_log w r : extends w (add_log w r).
Proof. repeat split; try reflexivity; [now exists [r] | exists []; simpl; now rewrite app_nil_r]. Qed.

Lemma extends_add_tmpfile w t : extends w (add_tmpfile w t).
Proof. repeat split; try reflexivity; [exists []; simpl; now rewrite app_nil_r | now exists [t]]. Qed.

Create HintDb grows.

Lemma grows_ret {A} (a : A) : grows (ret a).
Proof. intros w. apply extends_refl. Qed.

Lemma grows_call {A} (c : result A) : grows (call c).
Proof. intros w. apply extends_refl. Qed.

Lemma grows_continue {A} : grows (@continue_ A).
Proof. intros w. apply extends_refl. Qed.

Lemma grows_logger l s : grows (logger l s).
Proof. intros w. apply extends_add_log. Qed.

Lemma grows_bind {A B} (m : M A) (k : A -> M B) :
  grows m -> (forall a, grows (k a)) -> grows (bind m k).
Proof.
  intros Hm Hk w. unfold bind. specialize (Hm w).
  destruct (m w) as [[a|e|] w1]; simpl in *; auto.
  eapply extends_trans; [exact Hm | apply Hk].
Qed.

Lemma grows_try_except {A} (m : M A) (h : exn -> M A) :
  grows m -> (forall e, grows (h e)) -> grows (try_except m h).
Proof.
  intros Hm Hh w. unfold try_except. specialize (Hm w).
  destruct (m w) as [[a|e|] w1]; simpl in *; auto.
  eapply extends_trans; [exact Hm | apply Hh].
Qed.

Lemma grows_for {A S} (xs : list A) (body : A -> S -> M S) :
  (forall x s, grows (body x s)) -> forall s, grows (for_ xs body s).
Proof.
  intros Hb. induction xs as [|x xs IH]; intros s w; simpl.
  - apply extends_refl.
  - specialize (Hb x s w).
    destruct (body x s w) as [[s'|e|] w1]; simpl in *; auto;
      (eapply extends_trans; [exact Hb | apply IH]).
Qed.

Lemma grows_tempfile env suffix : grows (tempfile_NamedTemporaryFile env suffix).
Proof.
  intros w. unfold tempfile_NamedTemporaryFile.
  destruct (NamedTemporaryFile env _ suffix); simpl;
    auto using extends_refl, extends_add_tmpfile.
Qed.

Lemma grows_download_loop env request more :
  forall k written, grows (download_loop env request k more written).
Proof.
  induction more as [|more IH]; intros k written; simpl;
    apply grows_bind; auto using grows_call, grows_ret.
Qed.

#[global] Hint Resolve grows_ret grows_call grows_continue grows_logger
  grows_tempfile grows_download_loop : grows.
#[global] Hint Extern 2 (grows (bind _ _)) => apply grows_bind; [|intros] : grows.
#[global] Hint Extern 2 (grows (try_except _ _)) => apply grows_try_except; [|intros] : grows.
#[global] Hint Extern 3 (grows (logger_warning _)) => apply grows_logger : grows.
#[global] Hint Extern 3 (grows (logger_error _)) => apply grows_logger : grows.
#[global] Hint Extern 3 (grows (logger_info _)) => apply grows_logger : grows.

Lemma grows_choose_request env file : grows (choose_request env file).
Proof.
  unfold choose_request.
  repeat (destruct (String.eqb _ _)); auto with grows.
Qed.

Lemma grows_stage env request extension : grows (stage env request extension).
Proof.
  unfold stage. apply grows_bind; [auto with grows | intros fh].
  apply grows_bind; [auto with grows | intros payload]. auto with grows.
Qed.

Lemma grows_choose_loader name extension fh : grows (choose_loader name extension fh).
Proof.
  unfold choose_loader.
  repeat (destruct (String.eqb _ _)); auto with grows.
Qed.

Lemma grows_loop_body env file documents : grows (loop_body env file documents).
Proof.
  unfold loop_body, try_body, except_body.
  apply grows_try_except; [|intros; auto with grows].
  apply grows_bind; [apply grows_choose_request | intros [request extension]].
  apply grows_bind; [apply grows_stage | intros [fh payload]].
  apply grows_bind; [apply grows_choose_loader | intros loader].
  auto with grows.
Qed.

Lemma grows_get_documents_from_drive env folder_id :
  grows (get_documents_from_drive env folder_id).
Proof.
  unfold get_documents_from_drive.
  repeat (apply grows_bind; [apply grows_call | intros ?]).
  apply grows_for. intros. apply grows_loop_body.
Qed.

(** ** The loader: one file at a time *)

Lemma loop_body_caught env file documents w e w2 :
  try_body env file documents w = (Raised e, w2) ->
  loop_body env file documents w =
    (Normal documents,
     add_log w2
       (LogRecord ERROR
          ("❌ Error al procesar " +:+ file_name file +:+ ": " +:+ str_exn e))).
Proof.
  intros H. unfold loop_body, try_except. rewrite H. reflexivity.
Qed.

Lemma loop_body_catches env file documents : catches (loop_body env file documents).
Proof.
  intros w e w'. unfold loop_body, try_except.
  destruct (try_body env file documents w) as [[d|e0|] w1]; discriminate.
Qed.

Lemma try_body_appends env file documents w d w' :
  try_body env file documents w = (Normal d, w') ->
  exists loader payload docs,
    load env loader payload = Returns docs /\ d = documents ++ docs.
Proof.
  unfold try_body, bind.
  destruct (choose_request env file w) as [[[request extension]|e|] w1]; try discriminate.
  destruct (stage env request extension w1) as [[[fh payload]|e|] w2]; try discriminate.
  destruct (choose_loader (file_name file) extension fh w2) as [[loader|e|] w3];
    try discriminate.
  unfold call, ret.
  destruct (load env loader payload) as [docs|e] eqn:Hload; try discriminate.
  intros H. inversion H; subst. eauto.
Qed.

Lemma loop_body_appends env file documents w d w' :
  loop_body env file documents w = (Normal d, w') ->
  d = documents \/
  exists loader payload docs,
    load env loader payload = Returns docs /\ d = documents ++ docs.
Proof.
  unfold loop_body, try_except.
  destruct (try_body env file documents w) as [[d0|e|] w1] eqn:Htry.
  - intros H. inversion H; subst. right. eapply try_body_appends; eauto.
  - intros H. inversion H; subst. now left.
  - discriminate.
Qed.

Lemma for_loop_body_returns env files :
  forall documents w,
    exists added w',
      for_ files (loop_body env) documents w = (Normal (documents ++ added), w').
Proof.
  induction files as [|file files IH]; intros documents w; simpl.
  - exists [], w. unfold ret. now rewrite app_nil_r.
  - destruct (loop_body env file documents w) as [[d|e|] w1] eqn:Hbody.
    + destruct (IH d w1) as (added & w' & Hfor).
      apply loop_body_appends in Hbody as [->|(loader & payload & docs & _ & ->)].
      * eauto.
      * exists (docs ++ added), w'. now rewrite Hfor, app_assoc.
    + now apply loop_body_catches in Hbody.
    + apply IH.
Qed.

Lemma get_documents_from_drive_listing env folder_id results w :
  setup_returns env folder_id results ->
  get_documents_from_drive env folder_id w =
    for_ (default [] (results !! "files")) (loop_body env) [] w.
Proof.
  intros (decoded & creds_json & creds_dict & creds & service &
          H1 & H2 & H3 & H4 & H5 & H6).
  unfold get_documents_from_drive, bind, call.
  rewrite H1; simpl. rewrite H2; simpl. rewrite H3; simpl.
  rewrite H4; simpl. rewrite H5; simpl. rewrite H6; simpl. reflexivity.
Qed.

(** C1.  The folder lists [before ++ bad :: after].  When processing [bad]
    raises inside the [try] block, the exception is caught and logged at
    ERROR level with the display name of [bad]; the documents gathered from
    [before] are kept as they are and [bad] adds none; the loop goes on with
    [after]; and [get_documents_from_drive] returns normally, with documents
    that extend those of [before] and with the error record in the log. *)
Theorem one_bad_file_never_aborts_the_batch
    env folder_id results before bad after w d1 w1 e w2 :
  setup_returns env folder_id results ->
  default [] (results !! "files") = before ++ bad :: after ->
  for_ before (loop_body env) [] w = (Normal d1, w1) ->
  try_body env bad d1 w1 = (Raised e, w2) ->
  let error :=
    LogRecord ERROR
      ("❌ Error al procesar " +:+ file_name bad +:+ ": " +:+ str_exn e) in
  loop_body env bad d1 w1 = (Normal d1, add_log w2 error) /\
  get_documents_from_drive env folder_id w =
    for_ after (loop_body env) d1 (add_log w2 error) /\
  exists rest w',
    get_documents_from_drive env folder_id w = (Normal (d1 ++ rest), w') /\
    In error (log w').
Proof.
  intros Hsetup Hfiles Hbefore Hbad error.
  pose proof (loop_body_caught _ _ _ _ _ _ Hbad) as Hcaught. fold error in Hcaught.
  assert (Hgo : get_documents_from_drive env folder_id w =
                for_ after (loop_body env) d1 (add_log w2 error)).
  { rewrite (get_documents_from_drive_listing _ _ _ _ Hsetup), Hfiles.
    rewrite (for_app _ _ _ _ _ _ _ Hbefore). simpl. now rewrite Hcaught. }
  repeat split; auto.
  destruct (for_loop_body_returns env after d1 (add_log w2 error))
    as (rest & w' & Hafter).
  exists rest, w'. split; [congruence|].
  destruct (grows_for after (loop_body env) (grows_loop_body env) d1
              (add_log w2 error)) as ([l Hl] & _).
  rewrite Hafter in Hl. simpl in Hl. rewrite Hl.
  apply in_or_app. left. apply in_or_app. right. now left.
Qed.

(** A folder with a damaged PDF between two good files. *)
Lemma one_bad_file_never_aborts_the_batch_witness :
  exists rest w',
    get_documents_from_drive
      (Demo.env (Some "e30=") [Demo.silabo; Demo.roto; Demo.apuntes])
      (Some "folder") initial_world =
      (Normal ([{| page_content := "texto de 4";
                   metadata := [("source", "/tmp/tmp0.pdf")] |}] ++ rest), w') /\
    In (LogRecord ERROR "❌ Error al procesar roto.pdf: file is damaged") (log w').
Proof.
  refine (proj2 (proj2
    (one_bad_file_never_aborts_the_batch
       (Demo.env (Some "e30=") [Demo.silabo; Demo.roto; Demo.apuntes])
       (Some "folder") {["files" := [Demo.silabo; Demo.roto; Demo.apuntes]]}
       [Demo.silabo] Demo.roto [Demo.apuntes] initial_world
       _ _ (Exception "file is damaged") _ _ _ _ _))).
  - unfold setup_returns. do 5 eexists. repeat split; reflexivity.
  - reflexivity.
  - vm_compute. reflexivity.
  - vm_compute. reflexivity.
Defined.

(** ** The loader: dispatch *)

Lemma eqb_false_of_ne (a b : string) : a <> b -> String.eqb a b = false.
Proof. apply String.eqb_neq. Qed.

Lemma choose_request_other env file w :
  file_mime_type file <> GOOGLE_DOCUMENT ->
  file_mime_type file <> GOOGLE_PRESENTATION ->
  file_mime_type file <> GOOGLE_SPREADSHEET ->
  choose_request env file w =
    (Normal (get_media (file_id file), splitext_ext env (file_name file)), w).
Proof.
  intros H1 H2 H3. unfold choose_request.
  now rewrite !eqb_false_of_ne by assumption.
Qed.

Lemma choose_loader_unsupported name extension fh w :
  extension <> ".pdf" -> extension <> ".docx" -> extension <> ".pptx" ->
  choose_loader name extension fh w =
    (Continue, add_log w (LogRecord WARNING ("📄 Tipo de archivo no compatible: " +:+ name))).
Proof.
  intros H1 H2 H3. unfold choose_loader.
  now rewrite !eqb_false_of_ne by assumption.
Qed.

(** ** The loader: staging files *)

Lemma keeps_tmpfiles_bind {A B} (m : M A) (k : A -> M B) :
  keeps_tmpfiles m -> (forall a, keeps_tmpfiles (k a)) -> keeps_tmpfiles (bind m k).
Proof.
  intros Hm Hk w. unfold bind. specialize (Hm w).
  destruct (m w) as [[a|e|] w1]; simpl in *; auto.
  now rewrite Hk.
Qed.

Lemma keeps_tmpfiles_download_loop env request more :
  forall k written, keeps_tmpfiles (download_loop env request k more written).
Proof.
  induction more as [|more IH]; intros k written; simpl;
    apply keeps_tmpfiles_bind; try easy; intros data w; apply IH.
Qed.

Lemma keeps_tmpfiles_choose_loader name extension fh :
  keeps_tmpfiles (choose_loader name extension fh).
Proof.
  intros w. unfold choose_loader. repeat (destruct (String.eqb _ _)); reflexivity.
Qed.

(** The continuation of a binding that touches no temporary file leaves the
    temporary files as the bound computation left them. *)
Lemma tmpfiles_bind {A B} (m : M A) (k : A -> M B) w :
  (forall a, keeps_tmpfiles (k a)) ->
  tmpfiles (snd (bind m k w)) = tmpfiles (snd (m w)).
Proof.
  intros Hk. unfold bind. destruct (m w) as [[a|e|] w1]; simpl; auto.
  apply Hk.
Qed.

Lemma tmpfiles_try_except {A} (m : M A) (h : exn -> M A) w :
  (forall e, keeps_tmpfiles (h e)) ->
  tmpfiles (snd (try_except m h w)) = tmpfiles (snd (m w)).
Proof.
  intros Hh. unfold try_except. destruct (m w) as [[a|e|] w1]; simpl; auto.
  apply Hh.
Qed.

Lemma tmpfiles_stage env request extension w name :
  NamedTemporaryFile env (length (tmpfiles w)) extension = Returns name ->
  tmpfiles (snd (stage env request extension w)) =
    tmpfiles w ++ [{| tmp_name := name; tmp_suffix := extension |}].
Proof.
  intros Hname. unfold stage. rewrite tmpfiles_bind.
  - unfold tempfile_NamedTemporaryFile. now rewrite Hname.
  - intros fh. apply keeps_tmpfiles_bind; [apply keeps_tmpfiles_download_loop|].
    intros payload. apply keeps_tmpfiles_bind; easy.
Qed.

(** C7, as the code has it.  The staging file of a file is never released:
    once [NamedTemporaryFile] has made it, it is still on disk when the body
    of the loop is over, whether the file was extracted, skipped for its
    extension, or failed with an exception.  A spreadsheet is skipped before
    any staging file is made.  Over a whole batch the temporary files only
    accumulate. *)
Theorem staging_files_are_never_released env :
  (forall file documents w request extension name,
     choose_request env file w = (Normal (request, extension), w) ->
     NamedTemporaryFile env (length (tmpfiles w)) extension = Returns name ->
     tmpfiles (snd (loop_body env file documents w)) =
       tmpfiles w ++ [{| tmp_name := name; tmp_suffix := extension |}]) /\
  (forall file documents w,
     file_mime_type file = GOOGLE_SPREADSHEET ->
     tmpfiles (snd (loop_body env file documents w)) = tmpfiles w) /\
  (forall files documents w,
     exists created,
       tmpfiles (snd (for_ files (loop_body env) documents w)) =
         tmpfiles w ++ created).
Proof.
  repeat apply conj.
  - intros file documents w request extension name Hreq Hname.
    unfold loop_body. rewrite tmpfiles_try_except by easy.
    unfold try_body. rewrite (bind_Normal _ _ _ _ _ Hreq). cbv beta iota.
    rewrite tmpfiles_bind.
    + now apply tmpfiles_stage.
    + intros [fh payload].
      apply keeps_tmpfiles_bind; [apply keeps_tmpfiles_choose_loader|].
      intros loader. apply keeps_tmpfiles_bind; easy.
  - intros file documents w H.
    unfold loop_body, try_except, try_body, bind at 1, choose_request.
    rewrite H. reflexivity.
  - intros files documents w.
    destruct (grows_for files (loop_body env) (grows_loop_body env) documents w)
      as (_ & Ht & _).
    exact Ht.
Qed.

(** The staging file of a PDF that fails to parse is left on disk. *)
Lemma staging_files_are_never_released_witness :
  tmpfiles (snd (loop_body (Demo.env None []) Demo.roto [] initial_world)) =
    [{| tmp_name := "/tmp/tmp0.pdf"; tmp_suffix := ".pdf" |}].
Proof.
  apply (proj1 (staging_files_are_never_released (Demo.env None []))
           Demo.roto [] initial_world (get_media "5") ".pdf" "/tmp/tmp0.pdf");
    reflexivity.
Defined.

(** C7, as the spec has it, fails: after a PDF is extracted, its staging
    file is still there. *)
Lemma staging_file_outlives_its_file : ~ releases_staging (Demo.env None []).
Proof.
  intros H. specialize (H Demo.silabo [] initial_world).
  vm_compute in H. discriminate H.
Qed.

(** ** The loader: what is in the output *)

Lemma for_loop_body_provenance env files :
  forall documents w out w' d,
    for_ files (loop_body env) documents w = (Normal out, w') ->
    In d out ->
    In d documents \/
    exists loader payload docs, load env loader payload = Returns docs /\ In d docs.
Proof.
  induction files as [|file files IH]; intros documents w out w' d; simpl.
  - unfold ret. intros H Hd. inversion H; subst. now left.
  - destruct (loop_body env file documents w) as [[d1|e|] w1] eqn:Hbody;
      try discriminate.
    + intros Hfor Hd.
      destruct (IH _ _ _ _ _ Hfor Hd) as [Hin|Hload]; [|now right].
      apply loop_body_appends in Hbody as [->|(loader & payload & docs & Hl & ->)].
      * now left.
      * apply in_app_or in Hin as [Hin|Hin]; [now left|].
        right. eauto.
    + intros Hfor Hd. eapply IH; eauto.
Qed.

Lemma get_documents_from_drive_for env folder_id w documents w' :
  get_documents_from_drive env folder_id w = (Normal documents, w') ->
  exists files w0, for_ files (loop_body env) [] w0 = (Normal documents, w').
Proof.
  unfold get_documents_from_drive, bind, call.
  destruct (b64decode env _); try discriminate; simpl.
  destruct (decode_utf8 env _); try discriminate; simpl.
  destruct (json_loads env _); try discriminate; simpl.
  destruct (from_service_account_info env _); try discriminate; simpl.
  destruct (build env _ _ _); try discriminate; simpl.
  destruct (files_list_execute env _ _ _); try discriminate; simpl.
  eauto.
Qed.

(** C8, as the spec has it, fails: a folder holding that PDF gives an output
    with an empty body in it. *)
Lemma output_has_an_empty_body :
  ~ output_bodies_non_empty (Demo.env (Some "e30=") [Demo.vacio]).
Proof.
  intros H.
  specialize (H (Some "folder") initial_world
                [{| page_content := ""; metadata := [("source", "/tmp/tmp0.pdf")] |}]
                (add_tmpfile initial_world
                   {| tmp_name := "/tmp/tmp0.pdf"; tmp_suffix := ".pdf" |})
                eq_refl).
  inversion H as [|d l Hbody _]. now apply Hbody.
Qed.

(** ** The loader: before the loop *)

Lemma get_documents_from_drive_setup_raises env folder_id e w :
  setup_raises env folder_id e ->
  get_documents_from_drive env folder_id w = (Raised e, w).
Proof.
  intros H. unfold get_documents_from_drive, bind, call.
  destruct H as [H1|? H1 H2|? ? H1 H2 H3|? ? ? H1 H2 H3 H4|? ? ? ? H1 H2 H3 H4 H5
                |? ? ? ? ? H1 H2 H3 H4 H5 H6];
    rewrite H1; simpl; try (rewrite H2; simpl); try (rewrite H3; simpl);
    try (rewrite H4; simpl); try (rewrite H5; simpl); try (rewrite H6; simpl);
    reflexivity.
Qed.

(** C10.  An exception raised by the credential decoding, by the
    construction of the service or by the folder listing leaves
    [get_documents_from_drive] as it is, before any file is processed and
    with nothing logged; [main] does not catch it either, so it ends
    [main] before any handler is registered and before polling.  These are
    the only exceptions that leave the loader: whatever is raised while a
    file is processed is caught. *)
Theorem setup_errors_propagate_uncaught env folder_id w :
  (forall e,
     setup_raises env folder_id e ->
     get_documents_from_drive env folder_id w = (Raised e, w)) /\
  (forall e w',
     get_documents_from_drive env folder_id w = (Raised e, w') ->
     setup_raises env folder_id e) /\
  (forall e,
     setup_raises env (DRIVE_FOLDER_ID env) e ->
     main env w =
       (Raised e,
        add_log w (LogRecord INFO "🔍 Cargando documentos desde Google Drive..."))).
Proof.
  repeat apply conj.
  - intros e. apply get_documents_from_drive_setup_raises.
  - intros e w'. unfold get_documents_from_drive, bind, call.
    destruct (b64decode env _) as [decoded|e1] eqn:H1; simpl;
      [|intros H; inversion H; subst; now apply raises_b64decode].
    destruct (decode_utf8 env _) as [creds_json|e2] eqn:H2; simpl;
      [|intros H; inversion H; subst; eapply raises_decode; eauto].
    destruct (json_loads env _) as [creds_dict|e3] eqn:H3; simpl;
      [|intros H; inversion H; subst; eapply raises_json_loads; eauto].
    destruct (from_service_account_info env _) as [creds|e4] eqn:H4; simpl;
      [|intros H; inversion H; subst; eapply raises_from_service_account_info; eauto].
    destruct (build env _ _ _) as [service|e5] eqn:H5; simpl;
      [|intros H; inversion H; subst; eapply raises_build; eauto].
    destruct (files_list_execute env _ _ _) as [results|e6] eqn:H6; simpl;
      [|intros H; inversion H; subst; eapply raises_list; eauto].
    intros H.
    destruct (for_loop_body_returns env (default [] (results !! "files")) [] w)
      as (added & w2 & Hfor).
    rewrite Hfor in H. discriminate H.
  - intros e H. unfold main.
    rewrite (bind_Normal _ _ w tt
               (add_log w (LogRecord INFO "🔍 Cargando documentos desde Google Drive...")))
      by reflexivity.
    apply bind_Raised. now apply get_documents_from_drive_setup_raises.
Qed.

(** Without [GOOGLE_CREDS] the decoding raises, and so does [main]. *)
Lemma setup_errors_propagate_uncaught_witness :
  main (Demo.env None [Demo.silabo]) initial_world =
    (Raised (Exception "argument should be a bytes-like object"),
     add_log initial_world
       (LogRecord INFO "🔍 Cargando documentos desde Google Drive...")).
Proof.
  apply (proj2 (proj2 (setup_errors_propagate_uncaught
                         (Demo.env None [Demo.silabo]) None initial_world))).
  apply raises_b64decode. reflexivity.
Defined.

(** ** Startup *)

(** C2.  When the loader returns no document, or the splitter returns no
    chunk, [main] logs an error and returns: no handler is registered and
    polling is not started, so a bot that was not ready is not ready
    afterwards. *)
Theorem no_documents_or_no_chunks_halts_startup env w documents w1 :
  get_documents_from_drive env (DRIVE_FOLDER_ID env)
    (add_log w (LogRecord INFO "🔍 Cargando documentos desde Google Drive...")) =
    (Normal documents, w1) ->
  documents = [] \/ split_documents env 1000 100 documents = [] ->
  exists w',
    main env w = (Normal tt, w') /\
    handlers w' = handlers w /\
    polling w' = polling w /\
    replies w' = replies w /\
    (~ Ready w -> ~ Ready w').
Proof.
  intros Hget Hnone.
  pose proof (grows_get_documents_from_drive env (DRIVE_FOLDER_ID env)
                (add_log w (LogRecord INFO "🔍 Cargando documentos desde Google Drive...")))
    as (_ & _ & Hh & Hp & Hr).
  rewrite Hget in Hh, Hp, Hr. simpl in Hh, Hp, Hr.
  set (w2 := add_log w1
               (LogRecord INFO
                  ("📄 Total de documentos cargados: " +:+ pretty (length documents)))).
  assert (Hmain : exists r, main env w = (Normal tt, add_log w2 r)).
  { unfold main.
    rewrite (bind_Normal _ _ w tt
               (add_log w (LogRecord INFO "🔍 Cargando documentos desde Google Drive...")))
      by reflexivity.
    rewrite (bind_Normal _ _ _ _ _ Hget).
    rewrite (bind_Normal _ _ w1 tt w2) by reflexivity.
    destruct documents as [|doc documents'].
    - eexists. reflexivity.
    - destruct Hnone as [Hnone|Hnone]; [discriminate|]. rewrite Hnone.
      eexists. reflexivity. }
  destruct Hmain as (r & Hmain).
  exists (add_log w2 r). unfold Ready. simpl.
  repeat split; auto; congruence.
Qed.

(** A folder whose only file has no text: one document with an empty body
    is loaded, no chunk is made of it, the bot does not start. *)
Lemma no_documents_or_no_chunks_halts_startup_witness :
  exists w',
    main (Demo.env (Some "e30=") [Demo.vacio]) initial_world = (Normal tt, w') /\
    handlers w' = [] /\ polling w' = false /\ replies w' = [] /\
    (~ Ready initial_world -> ~ Ready w').
Proof.
  apply (no_documents_or_no_chunks_halts_startup
           (Demo.env (Some "e30=") [Demo.vacio]) initial_world
           [{| page_content := ""; metadata := [("source", "/tmp/tmp0.pdf")] |}]
           (add_tmpfile
              (add_log initial_world
                 (LogRecord INFO "🔍 Cargando documentos desde Google Drive..."))
              {| tmp_name := "/tmp/tmp0.pdf"; tmp_suffix := ".pdf" |})).
  - reflexivity.
  - right. reflexivity.
Defined.

(** ** Questions *)

Lemma handle_message_answers env qa_chain update w r :
  ainvoke env qa_chain {["query" := message_text update]} = Returns r ->
  let text := default "No encontré información." (r !! "result") in
  let w1 :=
    add_reply
      (add_log w (LogRecord INFO ("🧠 Pregunta recibida: " +:+ message_text update)))
      text in
  (exists extra,
     replies (snd (handle_message env qa_chain update w)) = replies w ++ text :: extra) /\
  (reply_text env text = Returns tt ->
   handle_message env qa_chain update w = (Normal tt, w1)).
Proof.
  intros Hr text w1.
  unfold handle_message, bind at 1, logger_info, logger, try_except, bind at 1, call.
  rewrite Hr. simpl. fold text. unfold update_message_reply_text at 1.
  destruct (reply_text env text) as [[]|e]; simpl.
  - split; [exists []; reflexivity | reflexivity].
  - split; [|discriminate].
    exists ["Ocurrió un error al procesar tu pregunta."].
    simpl. now rewrite <- app_assoc.
Qed.

(** C3.  When the call of the chain raises, [handle_message] catches the
    exception, logs it, and hands the fixed error message to the transport:
    the exception of the chain does not leave the handler.  The registered
    handlers, with the chain they captured, and the polling state are as
    before, and the next question whose chain call returns is answered with
    the text of its response. *)
Theorem ask_error_becomes_error_reply env qa_chain update w e :
  ainvoke env qa_chain {["query" := message_text update]} = Raises e ->
  let w' :=
    add_reply
      (add_log
         (add_log w (LogRecord INFO ("🧠 Pregunta recibida: " +:+ message_text update)))
         (LogRecord ERROR ("❌ Error al responder: " +:+ str_exn e)))
      "Ocurrió un error al procesar tu pregunta." in
  handle_message env qa_chain update w =
    (completion_of (reply_text env "Ocurrió un error al procesar tu pregunta."), w') /\
  handlers w' = handlers w /\
  (Ready w -> Ready w') /\
  forall next r,
    ainvoke env qa_chain {["query" := message_text next]} = Returns r ->
    exists extra,
      replies (snd (handle_message env qa_chain next w')) =
        replies w' ++ default "No encontré información." (r !! "result") :: extra.
Proof.
  intros He w'. repeat apply conj.
  - unfold handle_message, bind at 1, logger_info, logger, try_except, bind at 1, call.
    rewrite He. reflexivity.
  - reflexivity.
  - unfold Ready. auto.
  - intros next r Hr. apply (handle_message_answers env qa_chain next w' r Hr).
Qed.

(** A question on which the model call raises, then one it answers. *)
Lemma ask_error_becomes_error_reply_witness :
  handle_message (Demo.env None []) Demo.qa_chain {| message_text := "hola" |}
    initial_world =
    (Normal tt,
     add_reply
       (add_log
          (add_log initial_world (LogRecord INFO "🧠 Pregunta recibida: hola"))
          (LogRecord ERROR "❌ Error al responder: rate limit"))
       "Ocurrió un error al procesar tu pregunta.").
Proof.
  apply (ask_error_becomes_error_reply (Demo.env None []) Demo.qa_chain
           {| message_text := "hola" |} initial_world (Exception "rate limit")).
  reflexivity.
Defined.

(** C5, as the code has it.  When the response of the chain has no "result"
    field the reply is the fixed text "No encontré información.", and
    nothing is raised for the missing field; when it has one, the reply is
    that text. *)
Theorem answer_or_spanish_fallback env :
  falls_back_to env "No encontré información." /\
  (forall qa_chain update w r text,
     ainvoke env qa_chain {["query" := message_text update]} = Returns r ->
     r !! "result" = Some text ->
     exists extra,
       replies (snd (handle_message env qa_chain update w)) =
         replies w ++ text :: extra) /\
  (forall qa_chain update w r,
     ainvoke env qa_chain {["query" := message_text update]} = Returns r ->
     reply_text env (default "No encontré información." (r !! "result")) = Returns tt ->
     fst (handle_message env qa_chain update w) = Normal tt).
Proof.
  repeat apply conj.
  - intros qa_chain update w r Hr Hnone.
    destruct (handle_message_answers env qa_chain update w r Hr) as [H _].
    now rewrite Hnone in H.
  - intros qa_chain update w r text Hr Hsome.
    destruct (handle_message_answers env qa_chain update w r Hr) as [H _].
    now rewrite Hsome in H.
  - intros qa_chain update w r Hr Hreply.
    destruct (handle_message_answers env qa_chain update w r Hr) as [_ H].
    now rewrite (H Hreply).
Qed.

(** A response with an answer, and one without. *)
Lemma answer_or_spanish_fallback_witness :
  (exists extra,
     replies (snd (handle_message (Demo.env None []) Demo.qa_chain
                     {| message_text := "capital de Francia" |} initial_world)) =
       [] ++ "Paris" :: extra) /\
  (exists extra,
     replies (snd (handle_message (Demo.env None []) Demo.qa_chain
                     {| message_text := "sin campo" |} initial_world)) =
       [] ++ "No encontré información." :: extra).
Proof.
  split.
  - apply (proj1 (proj2 (answer_or_spanish_fallback (Demo.env None [])))
             Demo.qa_chain {| message_text := "capital de Francia" |} initial_world
             (<["result" := "Paris"]> {["query" := "capital de Francia"]}) "Paris");
      reflexivity.
  - apply (proj1 (answer_or_spanish_fallback (Demo.env None []))
             Demo.qa_chain {| message_text := "sin campo" |} initial_world
             {["query" := "sin campo"]});
      reflexivity.
Defined.

(** C5, as the spec has it, fails: the fallback text is not the English
    sentence. *)
Lemma fallback_is_not_the_english_text :
  ~ falls_back_to (Demo.env None []) "No relevant information found".
Proof.
  intros H.
  destruct (H Demo.qa_chain {| message_text := "sin campo" |} initial_world
              {["query" := "sin campo"]} eq_refl eq_refl) as (extra & Hextra).
  vm_compute in Hextra. discriminate Hextra.
Qed.

(** ** The chunker *)

Module ChunkerFacts.
Import Chunker.

Lemma ceil_div_le_1 a b : 0 < b -> a <= b -> ceil_div a b <= 1.
Proof.
  intros Hb Hab. unfold ceil_div.
  enough ((a + b - 1) / b < 2) by lia.
  apply Nat.Div0.div_lt_upper_bound. lia.
Qed.

Lemma ceil_div_0 b : 0 < b -> ceil_div 0 b = 0.
Proof. intros Hb. unfold ceil_div. apply Nat.div_small. lia. Qed.

Lemma ceil_div_pos a b : 0 < b -> 0 < a -> 1 <= ceil_div a b.
Proof.
  intros Hb Ha. unfold ceil_div.
  apply Nat.div_le_lower_bound; lia.
Qed.

Lemma ceil_div_add a b : 0 < b -> 0 < a -> ceil_div (a + b) b = S (ceil_div a b).
Proof.
  intros Hb Ha. unfold ceil_div.
  replace (a + b + b - 1) with (a + b - 1 + 1 * b) by lia.
  rewrite Nat.div_add by lia. lia.
Qed.

Section WindowFacts.
Context {A : Type}.
Variables chunk_size chunk_overlap : nat.
Hypothesis overlap_lt_size : chunk_overlap < chunk_size.

Let step := chunk_size - chunk_overlap.

(** The [k]-th chunk is the window of [chunk_size] characters that starts
    at [k * step]. *)
Lemma walk_lookup fuel :
  forall (body : list A) k chunk,
    walk fuel chunk_size step body !! k = Some chunk ->
    chunk = take chunk_size (drop (k * step) body).
Proof using Type.
  induction fuel as [|fuel IH]; intros body k chunk; simpl; [easy|].
  destruct (Nat.leb_spec (length body) chunk_size) as [Hle|Hgt].
  - destruct k as [|k]; simpl; [|easy].
    intros H. inversion H; subst. now rewrite take_ge.
  - destruct k as [|k]; simpl.
    + intros H. now inversion H.
    + intros H. apply IH in H. rewrite drop_drop in H. exact H.
Qed.

Lemma walk_length fuel :
  forall body : list A,
    0 < length body <= fuel ->
    length (walk fuel chunk_size step body) =
      Nat.max 1 (ceil_div (length body - chunk_overlap) step).
Proof using overlap_lt_size.
  induction fuel as [|fuel IH]; intros body [Hpos Hfuel]; [lia|]. simpl.
  destruct (Nat.leb_spec (length body) chunk_size) as [Hle|Hgt]; simpl.
  - pose proof (ceil_div_le_1 (length body - chunk_overlap) step). subst step. lia.
  - rewrite IH by (rewrite length_drop; subst step; lia).
    rewrite length_drop.
    replace (length body - chunk_overlap)
      with (length body - step - chunk_overlap + step) by (subst step; lia).
    rewrite ceil_div_add by (subst step; lia).
    pose proof (ceil_div_pos (length body - step - chunk_overlap) step).
    subst step. lia.
Qed.

Lemma walk_covers fuel :
  forall (body : list A) i,
    length body <= fuel -> i < length body ->
    exists k chunk,
      walk fuel chunk_size step body !! k = Some chunk /\
      k * step <= i /\
      chunk !! (i - k * step) = body !! i.
Proof using overlap_lt_size.
  induction fuel as [|fuel IH]; intros body i Hfuel Hi; [lia|]. simpl.
  destruct (Nat.leb_spec (length body) chunk_size) as [Hle|Hgt].
  - exists 0, body. simpl. rewrite Nat.sub_0_r. repeat split; lia || auto.
  - destruct (Nat.lt_ge_cases i chunk_size) as [Hin|Hout].
    + exists 0, (take chunk_size body). simpl. rewrite Nat.sub_0_r.
      repeat split; [lia|]. now apply lookup_take_lt.
    + destruct (IH (drop step body) (i - step)) as (k & chunk & Hk & Hle & Hc).
      * rewrite length_drop. subst step. lia.
      * rewrite length_drop. subst step. lia.
      * exists (S k), chunk. simpl. repeat split; [exact Hk | subst step; lia |].
        rewrite lookup_drop in Hc.
        replace (i - (step + k * step)) with (i - step - k * step) by lia.
        rewrite Hc. f_equal. subst step. lia.
Qed.

Lemma walk_Walk fuel :
  forall body : list A,
    length body <= fuel -> 0 < fuel ->
    Walk chunk_size chunk_overlap body (walk fuel chunk_size step body).
Proof using overlap_lt_size.
  induction fuel as [|fuel IH]; intros body Hfuel Hpos; [lia|]. simpl.
  destruct (Nat.leb_spec (length body) chunk_size) as [Hle|Hgt].
  - now apply Walk_final.
  - apply Walk_advance; [exact Hgt|]. apply IH.
    + rewrite length_drop. subst step. lia.
    + lia.
Qed.

Lemma windows_Split (body : list A) :
  Split chunk_size chunk_overlap body (windows chunk_size chunk_overlap body).
Proof using overlap_lt_size.
  destruct body as [|a body]; [apply Split_empty|].
  apply Split_walk; [easy|]. apply walk_Walk; simpl; lia.
Qed.
End WindowFacts.

Lemma Walk_deterministic {A} chunk_size chunk_overlap (body : list A) chunks1 :
  Walk chunk_size chunk_overlap body chunks1 ->
  forall chunks2, Walk chunk_size chunk_overlap body chunks2 -> chunks1 = chunks2.
Proof.
  induction 1 as [body Hle|body rest Hgt Hwalk IH]; intros chunks2 H2;
    inversion H2; subst; try lia; [reflexivity|].
  f_equal. now apply IH.
Qed.

Lemma Split_deterministic {A} chunk_size chunk_overlap (body : list A) chunks1 chunks2 :
  Split chunk_size chunk_overlap body chunks1 ->
  Split chunk_size chunk_overlap body chunks2 ->
  chunks1 = chunks2.
Proof.
  intros H1 H2. inversion H1; inversion H2; subst; try congruence.
  eapply Walk_deterministic; eauto.
Qed.

Lemma split_documents_SplitDocuments chunk_size chunk_overlap documents :
  chunk_overlap < chunk_size ->
  SplitDocuments chunk_size chunk_overlap documents
    (split_documents chunk_size chunk_overlap documents).
Proof.
  intros Hlt. induction documents as [|doc documents IH]; simpl.
  - apply SplitDocuments_nil.
  - apply SplitDocuments_cons; [now apply windows_Split | exact IH].
Qed.

(** Strings as lists of characters. *)
Lemma length_list_ascii_of_string s :
  length (list_ascii_of_string s) = String.length s.
Proof. induction s as [|a s IH]; simpl; congruence. Qed.

Lemma get_list_ascii_of_string s :
  forall i, String.get i s = list_ascii_of_string s !! i.
Proof.
  induction s as [|a s IH]; intros [|i]; simpl; auto.
Qed.

Lemma substring_take_drop s :
  forall n m,
    String.substring n m s =
      string_of_list_ascii (take m (drop n (list_ascii_of_string s))).
Proof.
  induction s as [|a s IH]; intros [|n] [|m]; simpl; auto.
  now rewrite IH.
Qed.

Lemma split_text_lookup chunk_size chunk_overlap body k chunk :
  split_text chunk_size chunk_overlap body !! k = Some chunk ->
  chunk = String.substring (k * (chunk_size - chunk_overlap)) chunk_size body.
Proof.
  unfold split_text, windows. rewrite list_lookup_fmap.
  destruct (list_ascii_of_string body) as [|a chars] eqn:Hchars; [easy|].
  rewrite <- Hchars.
  destruct (walk _ _ _ _ !! k) as [window|] eqn:Hk; [|easy].
  apply walk_lookup in Hk. simpl. intros H. inversion H; subst.
  now rewrite substring_take_drop.
Qed.

Lemma split_text_length chunk_size chunk_overlap body :
  chunk_overlap < chunk_size ->
  length (split_text chunk_size chunk_overlap body) =
    match String.length body with
    | O => 0
    | S _ =>
        Nat.max 1
          (ceil_div (String.length body - chunk_overlap) (chunk_size - chunk_overlap))
    end.
Proof.
  intros Hlt. unfold split_text, windows. rewrite length_fmap.
  rewrite <- (length_list_ascii_of_string body).
  destruct (list_ascii_of_string body) as [|a chars] eqn:Hchars; [reflexivity|].
  rewrite walk_length by (simpl; lia). reflexivity.
Qed.

Lemma split_text_covers chunk_size chunk_overlap body i c :
  chunk_overlap < chunk_size ->
  String.get i body = Some c ->
  exists k chunk,
    split_text chunk_size chunk_overlap body !! k = Some chunk /\
    k * (chunk_size - chunk_overlap) <= i /\
    String.get (i - k * (chunk_size - chunk_overlap)) chunk = Some c.
Proof.
  intros Hlt Hget. rewrite get_list_ascii_of_string in Hget.
  unfold split_text, windows.
  destruct (list_ascii_of_string body) as [|a chars] eqn:Hchars;
    [now rewrite lookup_nil in Hget|].
  rewrite <- Hchars in *. clear Hchars.
  destruct (walk_covers chunk_size chunk_overlap Hlt
              (length (list_ascii_of_string body)) (list_ascii_of_string body) i)
    as (k & window & Hk & Hle & Hc).
  - lia.
  - now apply lookup_lt_Some in Hget.
  - exists k, (string_of_list_ascii window). repeat split.
    + now rewrite list_lookup_fmap, Hk.
    + exact Hle.
    + rewrite get_list_ascii_of_string, list_ascii_of_string_of_list_ascii.
      now rewrite Hc.
Qed.

Lemma split_documents_singleton chunk_size chunk_overlap doc :
  page_content <$> split_documents chunk_size chunk_overlap [doc] =
    split_text chunk_size chunk_overlap (page_content doc).
Proof.
  unfold split_documents, split_text. simpl. rewrite app_nil_r.
  rewrite <- list_fmap_compose. reflexivity.
Qed.

End ChunkerFacts.

(** C4.  Against the walk of section 4.2, for a document whose body has [L]
    characters, split with [chunk_overlap < chunk_size]: the [k]-th chunk is
    the window of
    [chunk_size] characters that starts at [k * (chunk_size - chunk_overlap)];
    the number of chunks is [ceil(max(L - O, 0) / (S - O))], adjusted for the
    final partial chunk in that a non-empty body no longer than the overlap
    still has its one chunk; and every character of the body is in a chunk,
    at its own offset. *)
Theorem windows_count_and_cover chunk_size chunk_overlap doc :
  chunk_overlap < chunk_size ->
  let body := page_content doc in
  let chunks :=
    page_content <$> Chunker.split_documents chunk_size chunk_overlap [doc] in
  let L := String.length body in
  let step := chunk_size - chunk_overlap in
  (forall k chunk,
     chunks !! k = Some chunk ->
     chunk = String.substring (k * step) chunk_size body) /\
  length chunks =
    Nat.max (Chunker.chunk_count L chunk_size chunk_overlap) (Nat.min 1 L) /\
  (L = 0 \/ chunk_overlap < L ->
     length chunks = Chunker.chunk_count L chunk_size chunk_overlap) /\
  (0 < L <= chunk_overlap -> length chunks = 1) /\
  (forall i c,
     String.get i body = Some c ->
     exists k chunk,
       chunks !! k = Some chunk /\
       k * step <= i /\
       String.get (i - k * step) chunk = Some c).
Proof.
  intros Hlt body chunks L step.
  unfold chunks. rewrite ChunkerFacts.split_documents_singleton. fold body.
  clear chunks. set (chunks := Chunker.split_text chunk_size chunk_overlap body).
  assert (Hstep : 0 < step) by (unfold step; lia).
  assert (Hcount : length chunks =
                   Nat.max (Chunker.chunk_count L chunk_size chunk_overlap)
                     (Nat.min 1 L)).
  { unfold chunks. rewrite ChunkerFacts.split_text_length by exact Hlt.
    unfold Chunker.chunk_count. fold L step.
    destruct L as [|n]; simpl.
    - now rewrite ChunkerFacts.ceil_div_0.
    - lia. }
  assert (Hshort : L <= chunk_overlap ->
                   Chunker.chunk_count L chunk_size chunk_overlap = 0).
  { intros H. unfold Chunker.chunk_count.
    replace (L - chunk_overlap) with 0 by lia.
    now apply ChunkerFacts.ceil_div_0. }
  repeat apply conj.
  - intros k chunk. apply ChunkerFacts.split_text_lookup.
  - exact Hcount.
  - intros [H0|Hlong]; rewrite Hcount.
    + rewrite Hshort by lia. now rewrite H0.
    + pose proof (ChunkerFacts.ceil_div_pos (L - chunk_overlap) step Hstep).
      unfold Chunker.chunk_count. fold step. lia.
  - intros [Hpos Hle]. rewrite Hcount, Hshort by exact Hle. lia.
  - intros i c. now apply ChunkerFacts.split_text_covers.
Qed.

(** Ten characters in windows of four that overlap by one. *)
Lemma windows_count_and_cover_witness :
  length
    (page_content <$>
       Chunker.split_documents 4 1
         [{| page_content := "abcdefghij"; metadata := [("source", "a.pdf")] |}]) =
    Nat.max (Chunker.chunk_count 10 4 1) (Nat.min 1 10).
Proof.
  refine (proj1 (proj2
    (windows_count_and_cover 4 1
       {| page_content := "abcdefghij"; metadata := [("source", "a.pdf")] |} _))).
  lia.
Defined.

(** C9.  Against the contract of section 4.2, splitting is a function of its
    input: two splits of the same documents with the same
    [(chunk_size, chunk_overlap)] give the same chunk sequence. *)
Theorem split_is_deterministic chunk_size chunk_overlap documents chunks1 chunks2 :
  Chunker.SplitDocuments chunk_size chunk_overlap documents chunks1 ->
  Chunker.SplitDocuments chunk_size chunk_overlap documents chunks2 ->
  chunks1 = chunks2.
Proof.
  intros H1. revert chunks2.
  induction H1 as [|doc documents chunks rest Hsplit Hrest IH]; intros chunks2 H2;
    inversion H2 as [|doc' documents' chunks' rest' Hsplit' Hrest']; subst.
  - reflexivity.
  - rewrite (ChunkerFacts.Split_deterministic _ _ _ _ _ Hsplit Hsplit').
    f_equal. now apply IH.
Qed.

(** Two splits of the documents of scenario A with the parameters of
    [main]. *)
Lemma split_is_deterministic_witness :
  Chunker.split_documents 1000 100
    [{| page_content := "Paris is the capital of France."; metadata := [] |};
     {| page_content := "Berlin is the capital of Germany."; metadata := [] |}] =
  Chunker.split_documents 1000 100
    [{| page_content := "Paris is the capital of France."; metadata := [] |};
     {| page_content := "Berlin is the capital of Germany."; metadata := [] |}].
Proof.
  apply (split_is_deterministic 1000 100
           [{| page_content := "Paris is the capital of France."; metadata := [] |};
            {| page_content := "Berlin is the capital of Germany."; metadata := [] |}]);
    apply ChunkerFacts.split_documents_SplitDocuments; lia.
Defined.

(** * Further properties of the module *)

(** ** The loader: order and accumulation *)

Lemma try_body_accumulator env file documents w :
  try_body env file documents w =
    match try_body env file [] w with
    | (Normal d, w') => (Normal (documents ++ d), w')
    | (Raised e, w') => (Raised e, w')
    | (Continue, w') => (Continue, w')
    end.
Proof.
  unfold try_body, bind.
  destruct (choose_request env file w) as [[[request extension]|e|] w1]; try reflexivity.
  destruct (stage env request extension w1) as [[[fh payload]|e|] w2]; try reflexivity.
  destruct (choose_loader (file_name file) extension fh w2) as [[loader|e|] w3];
    try reflexivity.
  unfold call, ret. destruct (load env loader payload); reflexivity.
Qed.

Lemma loop_body_accumulator env file documents w :
  loop_body env file documents w =
    match loop_body env file [] w with
    | (Normal d, w') => (Normal (documents ++ d), w')
    | (Raised e, w') => (Raised e, w')
    | (Continue, w') => (Continue, w')
    end.
Proof.
  unfold loop_body, try_except. rewrite try_body_accumulator.
  destruct (try_body env file [] w) as [[d|e|] w1]; try reflexivity.
  unfold except_body, bind, logger_error, logger, ret. simpl.
  now rewrite app_nil_r.
Qed.

Lemma for_loop_body_accumulator env files :
  forall documents acc w d w',
    for_ files (loop_body env) acc w = (Normal d, w') ->
    exists added,
      d = acc ++ added /\
      for_ files (loop_body env) (documents ++ acc) w =
        (Normal (documents ++ acc ++ added), w').
Proof.
  induction files as [|file files IH]; intros documents acc w d w'; simpl.
  - unfold ret. intros H. inversion H; subst. exists []. now rewrite !app_nil_r.
  - rewrite (loop_body_accumulator env file acc w).
    rewrite (loop_body_accumulator env file (documents ++ acc) w).
    destruct (loop_body env file [] w) as [[d0|e|] w1]; try discriminate.
    + intros H. destruct (IH documents _ _ _ _ H) as (added & -> & Hfor).
      exists (d0 ++ added). rewrite <- !app_assoc in *. now rewrite Hfor.
    + apply IH.
Qed.

(** X1.  The output follows the order of the listing: when the listing is
    [files1 ++ files2], the documents of [files1] come first, as the loop
    over [files1] alone gathers them, followed by the documents that the
    loop over [files2] alone gathers from the world [files1] left. *)
Theorem output_follows_listing_order env folder_id results files1 files2 w d1 w1 :
  setup_returns env folder_id results ->
  default [] (results !! "files") = files1 ++ files2 ->
  for_ files1 (loop_body env) [] w = (Normal d1, w1) ->
  exists d2 w',
    for_ files2 (loop_body env) [] w1 = (Normal d2, w') /\
    get_documents_from_drive env folder_id w = (Normal (d1 ++ d2), w').
Proof.
  intros Hsetup Hfiles H1.
  destruct (for_loop_body_returns env files2 [] w1) as (d2 & w' & H2).
  simpl in H2. exists d2, w'. split; [exact H2|].
  rewrite (get_documents_from_drive_listing _ _ _ _ Hsetup), Hfiles.
  rewrite (for_app _ _ _ _ _ _ _ H1).
  destruct (for_loop_body_accumulator env files2 d1 [] w1 d2 w' H2)
    as (added & Hadded & Hfor).
  simpl in Hadded. subst added. now rewrite app_nil_r in Hfor.
Qed.

(** A Google document listed after a PDF. *)
Lemma output_follows_listing_order_witness :
  exists d2 w',
    for_ [Demo.apuntes] (loop_body (Demo.env (Some "e30=") [Demo.silabo; Demo.apuntes])) []
      (add_tmpfile initial_world {| tmp_name := "/tmp/tmp0.pdf"; tmp_suffix := ".pdf" |}) =
      (Normal d2, w') /\
    get_documents_from_drive (Demo.env (Some "e30=") [Demo.silabo; Demo.apuntes])
      (Some "folder") initial_world =
      (Normal ([{| page_content := "texto de 4";
                   metadata := [("source", "/tmp/tmp0.pdf")] |}] ++ d2), w').
Proof.
  apply (output_follows_listing_order
           (Demo.env (Some "e30=") [Demo.silabo; Demo.apuntes]) (Some "folder")
           {["files" := [Demo.silabo; Demo.apuntes]]} [Demo.silabo] [Demo.apuntes]).
  - unfold setup_returns. do 5 eexists. repeat split; reflexivity.
  - reflexivity.
  - reflexivity.
Defined.

(** ** The loader: folders without a document *)

(** X2.  A listing without a "files" key, or with an empty one, is an empty
    folder: the loader returns no document and leaves the world as it was,
    and [main] logs a count of 0 and the error, and returns without
    registering a handler. *)
Theorem empty_listing_halts_startup env results w :
  setup_returns env (DRIVE_FOLDER_ID env) results ->
  results !! "files" = None \/ results !! "files" = Some [] ->
  get_documents_from_drive env (DRIVE_FOLDER_ID env) w = (Normal [], w) /\
  main env w =
    (Normal tt,
     add_log
       (add_log
          (add_log w (LogRecord INFO "🔍 Cargando documentos desde Google Drive..."))
          (LogRecord INFO "📄 Total de documentos cargados: 0"))
       (LogRecord ERROR
          "❌ No se pudo cargar ningún documento válido. El bot no puede continuar.")).
Proof.
  intros Hsetup Hfiles.
  assert (Hget : forall w0,
            get_documents_from_drive env (DRIVE_FOLDER_ID env) w0 = (Normal [], w0)).
  { intros w0. rewrite (get_documents_from_drive_listing _ _ _ _ Hsetup).
    destruct Hfiles as [-> | ->]; reflexivity. }
  split; [apply Hget|].
  unfold main.
  rewrite (bind_Normal _ _ w tt
             (add_log w (LogRecord INFO "🔍 Cargando documentos desde Google Drive...")))
    by reflexivity.
  rewrite (bind_Normal _ _ _ _ _ (Hget _)). reflexivity.
Qed.

(** A folder that lists nothing. *)
Lemma empty_listing_halts_startup_witness :
  get_documents_from_drive (Demo.env (Some "e30=") []) (Some "folder") initial_world =
    (Normal [], initial_world).
Proof.
  refine (proj1 (empty_listing_halts_startup (Demo.env (Some "e30=") [])
                   {["files" := []]} initial_world _ _)).
  - unfold setup_returns. do 5 eexists. repeat split; reflexivity.
  - right. reflexivity.
Defined.

(** X3.  A batch of spreadsheets only: each is skipped with its own WARNING
    record, in the order of the listing, no document is added and no
    temporary file is created. *)
Theorem spreadsheets_only_give_no_document env files :
  Forall (fun file => file_mime_type file = GOOGLE_SPREADSHEET) files ->
  forall documents w,
    for_ files (loop_body env) documents w =
      (Normal documents,
       fold_left add_log
         (map (fun file =>
                 LogRecord WARNING
                   ("📄 Archivo de hoja de cálculo omitido: " +:+ file_name file))
              files)
         w).
Proof.
  induction 1 as [|file files Hsheet _ IH]; intros documents w; simpl.
  - reflexivity.
  - unfold loop_body at 1, try_except, try_body, bind at 1, choose_request.
    rewrite Hsheet. simpl. apply IH.
Qed.

(** Two spreadsheets. *)
Lemma spreadsheets_only_give_no_document_witness :
  for_ [Demo.notas; Demo.notas] (loop_body (Demo.env None [])) [] initial_world =
    (Normal [],
     add_log
       (add_log initial_world
          (LogRecord WARNING "📄 Archivo de hoja de cálculo omitido: Notas"))
       (LogRecord WARNING "📄 Archivo de hoja de cálculo omitido: Notas")).
Proof.
  apply (spreadsheets_only_give_no_document (Demo.env None [])
           [Demo.notas; Demo.notas]).
  repeat constructor.
Defined.

(** ** The loader: download *)

Lemma download_loop_returns env request more :
  forall k written w datas,
    length datas = S more ->
    (forall i data, datas !! i = Some data ->
                    next_chunk env request (k + i) = Returns data) ->
    download_loop env request k more written w =
      (Normal (fold_left String.append datas written), w).
Proof.
  induction more as [|more IH]; intros k written w datas Hlen Hdata;
    destruct datas as [|d datas]; try discriminate; simpl.
  - destruct datas; [|discriminate].
    unfold bind, call. rewrite <- (Nat.add_0_r k), (Hdata 0 d eq_refl). reflexivity.
  - unfold bind, call. rewrite <- (Nat.add_0_r k) at 1. rewrite (Hdata 0 d eq_refl).
    simpl. apply IH.
    + simpl in Hlen. lia.
    + intros i data Hi. rewrite <- (Hdata (S i) data Hi). f_equal. lia.
Qed.

(** ** The loader: from the mimetype to the loader *)

Lemma loop_body_extraction env file documents w request extension fh payload w1 loader :
  choose_request env file w = (Normal (request, extension), w) ->
  stage env request extension w = (Normal (fh, payload), w1) ->
  choose_loader (file_name file) extension fh w1 = (Normal loader, w1) ->
  loop_body env file documents w = extraction env file documents loader payload w1.
Proof.
  intros Hreq Hstage Hloader. unfold loop_body, try_except, try_body, extraction.
  rewrite (bind_Normal _ _ _ _ _ Hreq). cbv beta iota.
  rewrite (bind_Normal _ _ _ _ _ Hstage). cbv beta iota.
  rewrite (bind_Normal _ _ _ _ _ Hloader).
  unfold bind, call, ret. destruct (load env loader payload); reflexivity.
Qed.

(** X5.  A Google document is read with the Word loader and a Google
    presentation with the PowerPoint loader, whatever the name of the file;
    any other file is read with the loader of the extension of its name.
    In each case the documents of the loader are appended, or its exception
    is logged with the name of the file. *)
Theorem loader_follows_mimetype_then_name env file documents w fh payload w1 :
  (file_mime_type file = GOOGLE_DOCUMENT ->
   stage env (export_media (file_id file) DOCX_MIME) ".docx" w = (Normal (fh, payload), w1) ->
   loop_body env file documents w =
     extraction env file documents (UnstructuredWordDocumentLoader fh) payload w1) /\
  (file_mime_type file = GOOGLE_PRESENTATION ->
   stage env (export_media (file_id file) PPTX_MIME) ".pptx" w = (Normal (fh, payload), w1) ->
   loop_body env file documents w =
     extraction env file documents (UnstructuredPowerPointLoader fh) payload w1) /\
  (file_mime_type file <> GOOGLE_DOCUMENT ->
   file_mime_type file <> GOOGLE_PRESENTATION ->
   file_mime_type file <> GOOGLE_SPREADSHEET ->
   stage env (get_media (file_id file)) (splitext_ext env (file_name file)) w =
     (Normal (fh, payload), w1) ->
   (splitext_ext env (file_name file) = ".pdf" ->
    loop_body env file documents w =
      extraction env file documents (UnstructuredPDFLoader fh) payload w1) /\
   (splitext_ext env (file_name file) = ".docx" ->
    loop_body env file documents w =
      extraction env file documents (UnstructuredWordDocumentLoader fh) payload w1) /\
   (splitext_ext env (file_name file) = ".pptx" ->
    loop_body env file documents w =
      extraction env file documents (UnstructuredPowerPointLoader fh) payload w1)).
Proof.
  repeat apply conj.
  - intros Hmime Hstage.
    apply (loop_body_extraction _ _ _ _ _ _ _ _ _ _
             ltac:(unfold choose_request; now rewrite Hmime) Hstage).
    reflexivity.
  - intros Hmime Hstage.
    apply (loop_body_extraction _ _ _ _ _ _ _ _ _ _
             ltac:(unfold choose_request; now rewrite Hmime) Hstage).
    reflexivity.
  - intros H1 H2 H3 Hstage.
    pose proof (choose_request_other env file w H1 H2 H3) as Hreq.
    repeat apply conj; intros Hext;
      apply (loop_body_extraction _ _ _ _ _ _ _ _ _ _ Hreq Hstage);
      rewrite Hext; reflexivity.
Qed.

(** A Google document named like a PDF is still read with the Word
    loader. *)
Lemma loader_follows_mimetype_then_name_witness :
  loop_body (Demo.env None [])
    {| file_id := "8"; file_name := "informe.pdf"; file_mime_type := GOOGLE_DOCUMENT |}
    [] initial_world =
    (Normal [{| page_content := "texto de 8"; metadata := [("source", "/tmp/tmp0.docx")] |}],
     add_tmpfile initial_world {| tmp_name := "/tmp/tmp0.docx"; tmp_suffix := ".docx" |}).
Proof.
  refine (proj1 (loader_follows_mimetype_then_name (Demo.env None [])
                   {| file_id := "8"; file_name := "informe.pdf";
                      file_mime_type := GOOGLE_DOCUMENT |}
                   [] initial_world "/tmp/tmp0.docx" "8" _) _ _);
    reflexivity.
Defined.

(** ** The loader: what is logged, what is left on disk *)

Lemma silent_logs_only_to_skip {A} (m : M A) : silent m -> logs_only_to_skip m.
Proof.
  intros H w. destruct (H w) as [Hlog Hc].
  destruct (m w) as [[a|e|] w']; simpl in *; congruence.
Qed.

Lemma silent_call {A} (r : result A) : silent (call r).
Proof. intros w. destruct r; simpl; easy. Qed.

Lemma silent_ret {A} (a : A) : silent (ret a).
Proof. intros w. simpl. easy. Qed.

Lemma silent_bind {A B} (m : M A) (k : A -> M B) :
  silent m -> (forall a, silent (k a)) -> silent (bind m k).
Proof.
  intros Hm Hk w. unfold bind. destruct (Hm w) as [Hlog Hc].
  destruct (m w) as [[a|e|] w1]; simpl in *; try easy.
  destruct (Hk a w1) as [Hlog' Hc']. split; congruence.
Qed.

Lemma silent_tempfile env suffix : silent (tempfile_NamedTemporaryFile env suffix).
Proof.
  intros w. unfold tempfile_NamedTemporaryFile.
  destruct (NamedTemporaryFile env _ suffix); simpl; easy.
Qed.

Lemma silent_download_loop env request more :
  forall k written, silent (download_loop env request k more written).
Proof.
  induction more as [|more IH]; intros k written; simpl;
    apply silent_bind; auto using silent_call, silent_ret.
Qed.

Lemma silent_stage env request extension : silent (stage env request extension).
Proof.
  unfold stage. apply silent_bind; [apply silent_tempfile | intros fh].
  apply silent_bind; [apply silent_download_loop | intros payload].
  apply silent_bind; [apply silent_call | intros _; apply silent_ret].
Qed.

Lemma logs_only_to_skip_bind {A B} (m : M A) (k : A -> M B) :
  logs_only_to_skip m -> (forall a, logs_only_to_skip (k a)) ->
  logs_only_to_skip (bind m k).
Proof.
  intros Hm Hk w. unfold bind. specialize (Hm w).
  destruct (m w) as [[a|e|] w1]; try exact Hm.
  specialize (Hk a w1). destruct (k a w1) as [[b|e|] w2]; now rewrite <- Hm.
Qed.

Lemma logs_only_to_skip_choose_request env file :
  logs_only_to_skip (choose_request env file).
Proof.
  intros w. unfold choose_request.
  repeat (destruct (String.eqb _ _)); simpl; eauto.
Qed.

Lemma logs_only_to_skip_choose_loader name extension fh :
  logs_only_to_skip (choose_loader name extension fh).
Proof.
  intros w. unfold choose_loader.
  repeat (destruct (String.eqb _ _)); simpl; eauto.
Qed.

Lemma logs_only_to_skip_try_body env file documents :
  logs_only_to_skip (try_body env file documents).
Proof.
  unfold try_body.
  apply logs_only_to_skip_bind; [apply logs_only_to_skip_choose_request|].
  intros [request extension].
  apply logs_only_to_skip_bind; [apply silent_logs_only_to_skip, silent_stage|].
  intros [fh payload].
  apply logs_only_to_skip_bind; [apply logs_only_to_skip_choose_loader|].
  intros loader. apply silent_logs_only_to_skip.
  apply silent_bind; [apply silent_call | intros docs; apply silent_ret].
Qed.


Lemma loop_body_log_length env file documents w :
  length (log (snd (loop_body env file documents w))) <= S (length (log w)).
Proof.
  pose proof (logs_only_to_skip_try_body env file documents w) as Hlog.
  unfold loop_body, try_except.
  destruct (try_body env file documents w) as [[d|e|] w1]; simpl.
  - rewrite Hlog. lia.
  - rewrite length_app, Hlog. simpl. lia.
  - destruct Hlog as (r & -> & _). rewrite length_app. simpl. lia.
Qed.

Lemma keeps_tmpfiles_choose_request env file : keeps_tmpfiles (choose_request env file).
Proof.
  intros w. unfold choose_request. repeat (destruct (String.eqb _ _)); reflexivity.
Qed.

Lemma loop_body_tmpfiles_length env file documents w :
  length (tmpfiles (snd (loop_body env file documents w))) <= S (length (tmpfiles w)).
Proof.
  unfold loop_body. rewrite tmpfiles_try_except by easy.
  unfold try_body, bind at 1.
  pose proof (keeps_tmpfiles_choose_request env file w) as Hreq.
  destruct (choose_request env file w) as [[[request extension]|e|] w1];
    simpl in *; try (rewrite Hreq; lia).
  rewrite tmpfiles_bind.
  - unfold stage. rewrite tmpfiles_bind.
    + unfold tempfile_NamedTemporaryFile.
      destruct (NamedTemporaryFile env _ extension); simpl;
        rewrite ?length_app, Hreq; simpl; lia.
    + intros fh. apply keeps_tmpfiles_bind; [apply keeps_tmpfiles_download_loop|].
      intros payload. apply keeps_tmpfiles_bind; easy.
  - intros [fh payload].
    apply keeps_tmpfiles_bind; [apply keeps_tmpfiles_choose_loader|].
    intros loader. apply keeps_tmpfiles_bind; easy.
Qed.

Lemma for_loop_body_footprint env files :
  forall documents w,
    let w' := snd (for_ files (loop_body env) documents w) in
    length (log w') <= length (log w) + length files /\
    length (tmpfiles w') <= length (tmpfiles w) + length files.
Proof.
  induction files as [|file files IH]; intros documents w; simpl.
  - lia.
  - pose proof (loop_body_log_length env file documents w) as Hlog.
    pose proof (loop_body_tmpfiles_length env file documents w) as Htmp.
    destruct (loop_body env file documents w) as [[d|e|] w1]; simpl in *.
    + destruct (IH d w1). lia.
    + lia.
    + destruct (IH documents w1). lia.
Qed.

(** X7.  The footprint of the loader.  It registers no handler, does not
    start polling and sends no reply; what was logged and the temporary
    files that existed stay, in order; and once the listing is there, it
    adds at most one log record and at most one temporary file per listed
    file. *)
Theorem loader_footprint env folder_id w :
  let w' := snd (get_documents_from_drive env folder_id w) in
  extends w w' /\
  forall results,
    setup_returns env folder_id results ->
    length (log w') <= length (log w) + length (default [] (results !! "files")) /\
    length (tmpfiles w') <=
      length (tmpfiles w) + length (default [] (results !! "files")).
Proof.
  split; [apply grows_get_documents_from_drive|].
  intros results Hsetup.
  rewrite (get_documents_from_drive_listing _ _ _ _ Hsetup).
  apply for_loop_body_footprint.
Qed.

(** Three files, of which one is skipped before staging. *)
Lemma loader_footprint_witness :
  let w' :=
    snd (get_documents_from_drive
           (Demo.env (Some "e30=") [Demo.notas; Demo.roto; Demo.silabo])
           (Some "folder") initial_world) in
  length (log w') <= 0 + 3 /\ length (tmpfiles w') <= 0 + 3.
Proof.
  refine (proj2 (loader_footprint
                   (Demo.env (Some "e30=") [Demo.notas; Demo.roto; Demo.silabo])
                   (Some "folder") initial_world)
            {["files" := [Demo.notas; Demo.roto; Demo.silabo]]} _).
  unfold setup_returns. do 5 eexists. repeat split; reflexivity.
Defined.

(** ** Startup: after the documents are split *)

Lemma main_after_loading env w documents w1 :
  get_documents_from_drive env (DRIVE_FOLDER_ID env)
    (add_log w (LogRecord INFO "🔍 Cargando documentos desde Google Drive...")) =
    (Normal documents, w1) ->
  documents <> [] ->
  split_documents env 1000 100 documents <> [] ->
  main env w =
    (let texts := split_documents env 1000 100 documents in
     let* embedding := call (OpenAIEmbeddings env (OPENAI_API_KEY env)) in
     let* vectorstore := call (FAISS_from_documents env texts embedding) in
     let* chat := call (ChatOpenAI env (OPENAI_API_KEY env)) in
     let* qa_chain := call (from_chain_type env chat vectorstore) in
     call (ApplicationBuilder_build env (BOT_TOKEN env));;
     add_handler (CommandHandler "start" callback_start);;
     add_handler (MessageHandler_TEXT_not_COMMAND (callback_handle_message qa_chain));;
     logger_info "✅ Bot iniciado correctamente.";;
     run_polling env)
      (add_log w1
         (LogRecord INFO
            ("📄 Total de documentos cargados: " +:+ pretty (length documents)))).
Proof.
  intros Hget Hdocs Htexts. unfold main.
  rewrite (bind_Normal _ _ w tt
             (add_log w (LogRecord INFO "🔍 Cargando documentos desde Google Drive...")))
    by reflexivity.
  rewrite (bind_Normal _ _ _ _ _ Hget).
  rewrite (bind_Normal _ _ w1 tt
             (add_log w1
                (LogRecord INFO
                   ("📄 Total de documentos cargados: " +:+ pretty (length documents)))))
    by reflexivity.
  destruct documents as [|doc documents']; [congruence|].
  destruct (split_documents env 1000 100 (doc :: documents')); [congruence|].
  reflexivity.
Qed.

(** X9.  An exception of the embedding, the vector store, the chat model,
    the chain or the application builder is not caught: it ends [main]
    after the count of documents was logged, before any handler is
    registered and before polling. *)
Theorem index_build_errors_end_startup env w documents w1 e :
  get_documents_from_drive env (DRIVE_FOLDER_ID env)
    (add_log w (LogRecord INFO "🔍 Cargando documentos desde Google Drive...")) =
    (Normal documents, w1) ->
  documents <> [] ->
  split_documents env 1000 100 documents <> [] ->
  index_build_raises env (split_documents env 1000 100 documents) e ->
  main env w =
    (Raised e,
     add_log w1
       (LogRecord INFO
          ("📄 Total de documentos cargados: " +:+ pretty (length documents)))).
Proof.
  intros Hget Hdocs Htexts Hraises.
  rewrite (main_after_loading _ _ _ _ Hget Hdocs Htexts).
  unfold bind, call.
  destruct Hraises as [H1|? H1 H2|? ? H1 H2 H3|? ? ? H1 H2 H3 H4|? ? ? ? H1 H2 H3 H4 H5];
    rewrite H1; simpl; try (rewrite H2; simpl); try (rewrite H3; simpl);
    try (rewrite H4; simpl); try (rewrite H5; simpl); reflexivity.
Qed.

(** The embedding service is down while the index is built. *)
Lemma index_build_errors_end_startup_witness :
  main (Faulty.with_FAISS_from_documents (Demo.env (Some "e30=") [Demo.silabo])
          Faulty.embeddings_down)
    initial_world =
    (Raised (Exception "Connection error"),
     add_log
       (add_tmpfile
          (add_log initial_world
             (LogRecord INFO "🔍 Cargando documentos desde Google Drive..."))
          {| tmp_name := "/tmp/tmp0.pdf"; tmp_suffix := ".pdf" |})
       (LogRecord INFO "📄 Total de documentos cargados: 1")).
Proof.
  apply (index_build_errors_end_startup
           (Faulty.with_FAISS_from_documents (Demo.env (Some "e30=") [Demo.silabo])
              Faulty.embeddings_down)
           initial_world
           [{| page_content := "texto de 4"; metadata := [("source", "/tmp/tmp0.pdf")] |}]).
  - reflexivity.
  - discriminate.
  - discriminate.
  - eapply raises_FAISS; reflexivity.
Defined.

(** ** Questions: when the transport fails *)

(** X11.  When the chain answers but the transport refuses the answer, the
    exception of the transport is handled like one of the chain: it is
    logged and the fixed error message is sent as a second reply. *)
Theorem refused_answer_becomes_error_reply env qa_chain update w r e :
  ainvoke env qa_chain {["query" := message_text update]} = Returns r ->
  reply_text env (default "No encontré información." (r !! "result")) = Raises e ->
  handle_message env qa_chain update w =
    (completion_of (reply_text env "Ocurrió un error al procesar tu pregunta."),
     add_reply
       (add_log
          (add_reply
             (add_log w
                (LogRecord INFO ("🧠 Pregunta recibida: " +:+ message_text update)))
             (default "No encontré información." (r !! "result")))
          (LogRecord ERROR ("❌ Error al responder: " +:+ str_exn e)))
       "Ocurrió un error al procesar tu pregunta.").
Proof.
  intros Hr Hreply.
  unfold handle_message, bind at 1, logger_info, logger, try_except, bind at 1, call.
  rewrite Hr. simpl. unfold update_message_reply_text at 1. rewrite Hreply.
  reflexivity.
Qed.

(** The transport refuses "Paris". *)
Lemma refused_answer_becomes_error_reply_witness :
  replies
    (snd (handle_message
            (Faulty.with_reply_text (Demo.env None []) Faulty.refuses_Paris)
            Demo.qa_chain {| message_text := "capital de Francia" |} initial_world)) =
    ["Paris"; "Ocurrió un error al procesar tu pregunta."].
Proof.
  rewrite (refused_answer_becomes_error_reply
             (Faulty.with_reply_text (Demo.env None []) Faulty.refuses_Paris)
             Demo.qa_chain {| message_text := "capital de Francia" |} initial_world
             (<["result" := "Paris"]> {["query" := "capital de Francia"]})
             (Exception "Bad Request") eq_refl eq_refl).
  reflexivity.
Defined.

(** ** The loader: a download that fails *)

(** X14.  When the temporary file was created and the download then
    raises, the file is reported with that exception and adds no document,
    and the temporary file, with what was written of it, stays on disk. *)
Theorem failed_download_is_reported_and_leaves_its_file
    env file documents w request extension name e :
  choose_request env file w = (Normal (request, extension), w) ->
  NamedTemporaryFile env (length (tmpfiles w)) extension = Returns name ->
  download_loop env request 0 (last_chunk env request) ""
    (add_tmpfile w {| tmp_name := name; tmp_suffix := extension |}) =
    (Raised e, add_tmpfile w {| tmp_name := name; tmp_suffix := extension |}) ->
  loop_body env file documents w =
    (Normal documents,
     add_log (add_tmpfile w {| tmp_name := name; tmp_suffix := extension |})
       (LogRecord ERROR
          ("❌ Error al procesar " +:+ file_name file +:+ ": " +:+ str_exn e))).
Proof.
  intros Hreq Hname Hdown.
  apply loop_body_caught. unfold try_body.
  rewrite (bind_Normal _ _ _ _ _ Hreq). cbv beta iota.
  apply bind_Raised. unfold stage.
  rewrite (bind_Normal _ _ w name
             (add_tmpfile w {| tmp_name := name; tmp_suffix := extension |})).
  - now apply bind_Raised.
  - unfold tempfile_NamedTemporaryFile. now rewrite Hname.
Qed.

(** The connection drops at the second of three chunks. *)
Lemma failed_download_is_reported_and_leaves_its_file_witness :
  loop_body
    (FaultyStore.with_next_chunk (Demo.env None []) FaultyStore.drops_at_second
       (fun _ => 2))
    Demo.silabo [] initial_world =
    (Normal [],
     add_log
       (add_tmpfile initial_world {| tmp_name := "/tmp/tmp0.pdf"; tmp_suffix := ".pdf" |})
       (LogRecord ERROR "❌ Error al procesar silabo.pdf: Connection reset")).
Proof.
  apply (failed_download_is_reported_and_leaves_its_file
           (FaultyStore.with_next_chunk (Demo.env None []) FaultyStore.drops_at_second
              (fun _ => 2))
           Demo.silabo [] initial_world (get_media "4") ".pdf" "/tmp/tmp0.pdf"
           (Exception "Connection reset"));
    reflexivity.
Defined.

(** ** The loader: from the mimetype to the extractor, end to end *)

Lemma stage_returns env request extension w fh datas :
  staged env request extension w fh datas ->
  stage env request extension w =
    (Normal (fh, payload_of datas),
     add_tmpfile w {| tmp_name := fh; tmp_suffix := extension |}).
Proof.
  intros (Hname & Hlen & Hdata & Hflush). unfold stage.
  rewrite (bind_Normal _ _ w fh
             (add_tmpfile w {| tmp_name := fh; tmp_suffix := extension |}))
    by (unfold tempfile_NamedTemporaryFile; now rewrite Hname).
  rewrite (bind_Normal _ _ _ _ _
             (download_loop_returns env request (last_chunk env request) 0 "" _
                datas Hlen Hdata)).
  unfold bind, call, ret. now rewrite Hflush.
Qed.

(** C6.  The request and the extension are chosen by mimetype: a Google
    document is exported as a word-processor file (".docx"), a Google
    presentation as a presentation file (".pptx"); a Google spreadsheet is
    skipped, with one WARNING record and nothing else: no request, no
    temporary file, no document, no error; any other mimetype is downloaded
    as it is and gets the extension of its name.  The loader is then chosen
    by extension (".pdf", ".docx", ".pptx"), and a staged file with any other
    extension is skipped with one WARNING record, no document and no error.
    End to end: the chunks downloaded for the export request of a Google
    document are read with the Word loader, those of a Google presentation
    with the PowerPoint loader, and those downloaded as they are for any
    other file with the loader of the extension of its name; what that
    loader returns is appended to the documents. *)
Theorem dispatch_by_mimetype_then_extension env file documents w :
  (file_mime_type file = GOOGLE_DOCUMENT ->
     choose_request env file w =
       (Normal (export_media (file_id file) DOCX_MIME, ".docx"), w)) /\
  (file_mime_type file = GOOGLE_PRESENTATION ->
     choose_request env file w =
       (Normal (export_media (file_id file) PPTX_MIME, ".pptx"), w)) /\
  (file_mime_type file = GOOGLE_SPREADSHEET ->
     forall rest,
       for_ (file :: rest) (loop_body env) documents w =
         for_ rest (loop_body env) documents
           (add_log w
              (LogRecord WARNING
                 ("📄 Archivo de hoja de cálculo omitido: " +:+ file_name file)))) /\
  (file_mime_type file <> GOOGLE_DOCUMENT ->
   file_mime_type file <> GOOGLE_PRESENTATION ->
   file_mime_type file <> GOOGLE_SPREADSHEET ->
     choose_request env file w =
       (Normal (get_media (file_id file), splitext_ext env (file_name file)), w)) /\
  (forall fh,
     choose_loader (file_name file) ".pdf" fh w = (Normal (UnstructuredPDFLoader fh), w) /\
     choose_loader (file_name file) ".docx" fh w =
       (Normal (UnstructuredWordDocumentLoader fh), w) /\
     choose_loader (file_name file) ".pptx" fh w =
       (Normal (UnstructuredPowerPointLoader fh), w)) /\
  (forall request extension fh payload w1 rest,
     choose_request env file w = (Normal (request, extension), w) ->
     stage env request extension w = (Normal (fh, payload), w1) ->
     extension <> ".pdf" -> extension <> ".docx" -> extension <> ".pptx" ->
     for_ (file :: rest) (loop_body env) documents w =
       for_ rest (loop_body env) documents
         (add_log w1
            (LogRecord WARNING
               ("📄 Tipo de archivo no compatible: " +:+ file_name file)))) /\
  (forall fh datas,
     file_mime_type file = GOOGLE_DOCUMENT ->
     staged env (export_media (file_id file) DOCX_MIME) ".docx" w fh datas ->
     loop_body env file documents w =
       extraction env file documents (UnstructuredWordDocumentLoader fh)
         (payload_of datas)
         (add_tmpfile w {| tmp_name := fh; tmp_suffix := ".docx" |})) /\
  (forall fh datas,
     file_mime_type file = GOOGLE_PRESENTATION ->
     staged env (export_media (file_id file) PPTX_MIME) ".pptx" w fh datas ->
     loop_body env file documents w =
       extraction env file documents (UnstructuredPowerPointLoader fh)
         (payload_of datas)
         (add_tmpfile w {| tmp_name := fh; tmp_suffix := ".pptx" |})) /\
  (forall fh datas,
     file_mime_type file <> GOOGLE_DOCUMENT ->
     file_mime_type file <> GOOGLE_PRESENTATION ->
     file_mime_type file <> GOOGLE_SPREADSHEET ->
     staged env (get_media (file_id file)) (splitext_ext env (file_name file)) w
       fh datas ->
     let extension := splitext_ext env (file_name file) in
     let w1 := add_tmpfile w {| tmp_name := fh; tmp_suffix := extension |} in
     (extension = ".pdf" ->
      loop_body env file documents w =
        extraction env file documents (UnstructuredPDFLoader fh) (payload_of datas) w1) /\
     (extension = ".docx" ->
      loop_body env file documents w =
        extraction env file documents (UnstructuredWordDocumentLoader fh)
          (payload_of datas) w1) /\
     (extension = ".pptx" ->
      loop_body env file documents w =
        extraction env file documents (UnstructuredPowerPointLoader fh)
          (payload_of datas) w1) /\
     (extension <> ".pdf" -> extension <> ".docx" -> extension <> ".pptx" ->
      loop_body env file documents w =
        (Continue,
         add_log w1
           (LogRecord WARNING
              ("📄 Tipo de archivo no compatible: " +:+ file_name file))))).
Proof.
  repeat apply conj.
  - intros H. unfold choose_request. now rewrite H.
  - intros H. unfold choose_request. now rewrite H.
  - intros H rest. simpl.
    unfold loop_body, try_except, try_body, bind at 1, choose_request.
    rewrite H. reflexivity.
  - apply choose_request_other.
  - intros fh. repeat split.
  - intros request extension fh payload w1 rest Hreq Hstage H1 H2 H3. simpl.
    unfold loop_body, try_except, try_body.
    rewrite (bind_Normal _ _ _ _ _ Hreq). cbv beta iota.
    rewrite (bind_Normal _ _ _ _ _ Hstage). cbv beta iota.
    rewrite (bind_Continue _ _ _ _ (choose_loader_unsupported _ _ _ _ H1 H2 H3)).
    reflexivity.
  - intros fh datas Hmime Hstaged.
    apply (loop_body_extraction _ _ _ _ _ _ _ _ _ _
             ltac:(unfold choose_request; now rewrite Hmime)
             (stage_returns _ _ _ _ _ _ Hstaged)).
    reflexivity.
  - intros fh datas Hmime Hstaged.
    apply (loop_body_extraction _ _ _ _ _ _ _ _ _ _
             ltac:(unfold choose_request; now rewrite Hmime)
             (stage_returns _ _ _ _ _ _ Hstaged)).
    reflexivity.
  - intros fh datas H1 H2 H3 Hstaged extension w1.
    pose proof (choose_request_other env file w H1 H2 H3) as Hreq.
    pose proof (stage_returns _ _ _ _ _ _ Hstaged) as Hstage.
    fold extension in Hreq, Hstage. fold w1 in Hstage.
    repeat apply conj.
    + intros Hext. apply (loop_body_extraction _ _ _ _ _ _ _ _ _ _ Hreq Hstage).
      fold extension. rewrite Hext. reflexivity.
    + intros Hext. apply (loop_body_extraction _ _ _ _ _ _ _ _ _ _ Hreq Hstage).
      fold extension. rewrite Hext. reflexivity.
    + intros Hext. apply (loop_body_extraction _ _ _ _ _ _ _ _ _ _ Hreq Hstage).
      fold extension. rewrite Hext. reflexivity.
    + intros E1 E2 E3. unfold loop_body, try_except, try_body.
      rewrite (bind_Normal _ _ _ _ _ Hreq). cbv beta iota.
      rewrite (bind_Normal _ _ _ _ _ Hstage). cbv beta iota.
      rewrite (bind_Continue _ _ _ _ (choose_loader_unsupported _ _ _ _ E1 E2 E3)).
      reflexivity.
Qed.

(** A Google document that the store sends in three chunks: the export
    request is downloaded chunk after chunk into a ".docx" file and read with
    the Word loader. *)
Lemma dispatch_by_mimetype_then_extension_witness :
  loop_body ChunkedStore.env Demo.apuntes [] initial_world =
    (Normal [{| page_content := "1.0;1.1;1.2;";
                metadata := [("loader", "word"); ("source", "/tmp/tmp0.docx")] |}],
     add_tmpfile initial_world {| tmp_name := "/tmp/tmp0.docx"; tmp_suffix := ".docx" |}).
Proof.
  pose proof (dispatch_by_mimetype_then_extension ChunkedStore.env Demo.apuntes []
                initial_world) as (_ & _ & _ & _ & _ & _ & Hdoc & _).
  rewrite (Hdoc "/tmp/tmp0.docx" ["1.0;"; "1.1;"; "1.2;"] eq_refl).
  - reflexivity.
  - repeat split.
    intros [|[|[|i]]] data H; inversion H; reflexivity.
Defined.

(** ** The loader: the output, file by file *)

Lemma try_body_Normal_inv env file documents w d w3 :
  try_body env file documents w = (Normal d, w3) ->
  exists request extension w1 fh payload w2 loader docs,
    choose_request env file w = (Normal (request, extension), w1) /\
    stage env request extension w1 = (Normal (fh, payload), w2) /\
    choose_loader (file_name file) extension fh w2 = (Normal loader, w3) /\
    load env loader payload = Returns docs /\
    d = documents ++ docs.
Proof.
  unfold try_body, bind.
  destruct (choose_request env file w) as [[[request extension]|e|] w1]; try discriminate.
  destruct (stage env request extension w1) as [[[fh payload]|e|] w2] eqn:Hstage;
    try discriminate.
  destruct (choose_loader (file_name file) extension fh w2) as [[loader|e|] w3']
    eqn:Hloader; try discriminate.
  unfold call, ret.
  destruct (load env loader payload) as [docs|e] eqn:Hload; try discriminate.
  intros H. inversion H; subst.
  exists request, extension, w1, fh, payload, w2, loader, docs. auto.
Qed.

Lemma loop_body_contributes env file w :
  exists docs w1,
    contributes env file w docs w1 /\
    forall documents,
      loop_body env file documents w = (Normal (documents ++ docs), w1) \/
      (docs = [] /\ loop_body env file documents w = (Continue, w1)).
Proof.
  destruct (try_body env file [] w) as [[d|e|] w1] eqn:Htry.
  - destruct (try_body_Normal_inv _ _ _ _ _ _ Htry)
      as (request & extension & w0 & fh & payload & w2 & loader & docs &
          Hreq & Hstage & Hloader & Hload & Hd).
    simpl in Hd. subst d. exists docs, w1. split.
    + eapply contributes_extracted; eauto.
    + intros documents. left. unfold loop_body, try_except.
      now rewrite try_body_accumulator, Htry.
  - eexists [], _. split.
    + apply contributes_failed. exact Htry.
    + intros documents. left. unfold loop_body, try_except.
      rewrite try_body_accumulator, Htry.
      unfold except_body, bind, logger_error, logger, ret. simpl.
      now rewrite app_nil_r.
  - exists [], w1. split.
    + now apply contributes_skipped.
    + intros documents. right. split; [reflexivity|].
      unfold loop_body, try_except. now rewrite try_body_accumulator, Htry.
Qed.

Lemma for_loop_body_gathers env files :
  forall documents w,
    exists out w',
      gathers env files w out w' /\
      for_ files (loop_body env) documents w = (Normal (documents ++ out), w').
Proof.
  induction files as [|file files IH]; intros documents w; simpl.
  - exists [], w. split; [apply gathers_nil|]. unfold ret. now rewrite app_nil_r.
  - destruct (loop_body_contributes env file w) as (docs & w1 & Hc & Hbody).
    destruct (Hbody documents) as [Hn|[-> Hcont]].
    + rewrite Hn. destruct (IH (documents ++ docs) w1) as (rest & w' & Hg & Hfor).
      exists (docs ++ rest), w'. split; [eapply gathers_cons; eauto|].
      now rewrite Hfor, app_assoc.
    + rewrite Hcont. destruct (IH documents w1) as (rest & w' & Hg & Hfor).
      exists ([] ++ rest), w'. split; [eapply gathers_cons; eauto|]. exact Hfor.
Qed.

(** C8, as the code has it.  When the request, the staging, the choice of
    loader and the extraction of a file all succeed, every document the
    extractor returned is appended to the output, whatever its body.  When
    the processing of a file raises, the file adds nothing and the documents
    gathered before it are kept.  The output of the loader is exactly what
    the listed files contribute, each processed once, in the order of the
    listing: for a file processed without exception the documents that the
    loader chosen for it returned on the payload staged for it, for a skipped
    or failed file nothing.  The loader itself never looks at a body. *)
Theorem loader_output_is_what_extractors_returned env :
  (forall file documents w request extension w1 fh payload w2 loader w3 docs,
     choose_request env file w = (Normal (request, extension), w1) ->
     stage env request extension w1 = (Normal (fh, payload), w2) ->
     choose_loader (file_name file) extension fh w2 = (Normal loader, w3) ->
     load env loader payload = Returns docs ->
     loop_body env file documents w = (Normal (documents ++ docs), w3)) /\
  (forall file documents w e w1,
     try_body env file documents w = (Raised e, w1) ->
     loop_body env file documents w =
       (Normal documents,
        add_log w1
          (LogRecord ERROR
             ("❌ Error al procesar " +:+ file_name file +:+ ": " +:+ str_exn e)))) /\
  (forall folder_id results w,
     setup_returns env folder_id results ->
     exists out w',
       gathers env (default [] (results !! "files")) w out w' /\
       get_documents_from_drive env folder_id w = (Normal out, w')) /\
  (forall folder_id w documents w' d,
     get_documents_from_drive env folder_id w = (Normal documents, w') ->
     In d documents ->
     exists loader payload docs,
       load env loader payload = Returns docs /\ In d docs).
Proof.
  repeat apply conj.
  - intros file documents w request extension w1 fh payload w2 loader w3 docs
      Hreq Hstage Hloader Hload.
    unfold loop_body, try_except, try_body.
    rewrite (bind_Normal _ _ _ _ _ Hreq). cbv beta iota.
    rewrite (bind_Normal _ _ _ _ _ Hstage). cbv beta iota.
    rewrite (bind_Normal _ _ _ _ _ Hloader).
    unfold bind, call, ret. now rewrite Hload.
  - intros file documents w e w1. apply loop_body_caught.
  - intros folder_id results w Hsetup.
    rewrite (get_documents_from_drive_listing _ _ _ _ Hsetup).
    destruct (for_loop_body_gathers env (default [] (results !! "files")) [] w)
      as (out & w' & Hg & Hfor).
    exists out, w'. split; [exact Hg | exact Hfor].
  - intros folder_id w documents w' d Hget Hd.
    apply get_documents_from_drive_for in Hget as (files & w0 & Hfor).
    destruct (for_loop_body_provenance _ _ _ _ _ _ _ Hfor Hd) as [[]|H]; exact H.
Qed.

(** A PDF with text, then a damaged PDF: the document of the first is kept
    when the second fails; and a PDF without text, whose document with an
    empty body is kept. *)
Lemma loader_output_is_what_extractors_returned_witness :
  loop_body (Demo.env None []) Demo.roto
    [{| page_content := "texto de 4"; metadata := [("source", "/tmp/tmp0.pdf")] |}]
    (add_tmpfile initial_world {| tmp_name := "/tmp/tmp0.pdf"; tmp_suffix := ".pdf" |}) =
    (Normal
       [{| page_content := "texto de 4"; metadata := [("source", "/tmp/tmp0.pdf")] |}],
     add_log
       (add_tmpfile
          (add_tmpfile initial_world {| tmp_name := "/tmp/tmp0.pdf"; tmp_suffix := ".pdf" |})
          {| tmp_name := "/tmp/tmp1.pdf"; tmp_suffix := ".pdf" |})
       (LogRecord ERROR "❌ Error al procesar roto.pdf: file is damaged")) /\
  loop_body (Demo.env None []) Demo.vacio [] initial_world =
    (Normal [{| page_content := ""; metadata := [("source", "/tmp/tmp0.pdf")] |}],
     add_tmpfile initial_world {| tmp_name := "/tmp/tmp0.pdf"; tmp_suffix := ".pdf" |}).
Proof.
  split.
  - apply (proj1 (proj2 (loader_output_is_what_extractors_returned (Demo.env None [])))
             Demo.roto _ _ (Exception "file is damaged")).
    reflexivity.
  - apply (proj1 (loader_output_is_what_extractors_returned (Demo.env None []))
             Demo.vacio [] initial_world (get_media "7") ".pdf" initial_world
             "/tmp/tmp0.pdf" "7"
             (add_tmpfile initial_world
                {| tmp_name := "/tmp/tmp0.pdf"; tmp_suffix := ".pdf" |})
             (UnstructuredPDFLoader "/tmp/tmp0.pdf"));
      reflexivity.
Defined.

(** ** Startup: up to the call of [run_polling] *)

(** X8.  When documents were loaded, chunks were made of them and the five
    constructions return, [main] registers the command handler for "start"
    and then the message handler, whose callback holds the chain that was
    built on the chunks, logs that the bot started, and only then calls
    [run_polling]: at that call both handlers are registered after those
    there were, polling was not entered before, and no reply was sent.  How
    [main] ends from there is how [run_polling] ends. *)
Theorem startup_registers_both_handlers_then_polls env w documents w1 qa_chain :
  get_documents_from_drive env (DRIVE_FOLDER_ID env)
    (add_log w (LogRecord INFO "🔍 Cargando documentos desde Google Drive...")) =
    (Normal documents, w1) ->
  documents <> [] ->
  split_documents env 1000 100 documents <> [] ->
  index_build_returns env (split_documents env 1000 100 documents) qa_chain ->
  let at_polling :=
    add_log
      (register
         (register
            (add_log w1
               (LogRecord INFO
                  ("📄 Total de documentos cargados: " +:+ pretty (length documents))))
            (CommandHandler "start" callback_start))
         (MessageHandler_TEXT_not_COMMAND (callback_handle_message qa_chain)))
      (LogRecord INFO "✅ Bot iniciado correctamente.") in
  main env w = run_polling env at_polling /\
  handlers at_polling = handlers w ++ bot_handlers qa_chain /\
  polling at_polling = polling w /\
  replies at_polling = replies w.
Proof.
  intros Hget Hdocs Htexts (embedding & vectorstore & chat & H1 & H2 & H3 & H4 & H5)
    at_polling.
  pose proof (grows_get_documents_from_drive env (DRIVE_FOLDER_ID env)
                (add_log w (LogRecord INFO "🔍 Cargando documentos desde Google Drive...")))
    as (_ & _ & Hh & Hp & Hr).
  rewrite Hget in Hh, Hp, Hr. simpl in Hh, Hp, Hr.
  repeat apply conj.
  - rewrite (main_after_loading _ _ _ _ Hget Hdocs Htexts).
    unfold bind, call. rewrite H1; simpl. rewrite H2; simpl. rewrite H3; simpl.
    rewrite H4; simpl. rewrite H5; simpl. reflexivity.
  - unfold at_polling, bot_handlers. simpl. now rewrite Hh, <- !app_assoc.
  - exact Hp.
  - exact Hr.
Qed.

(** A folder with one PDF: polling is entered with the two handlers. *)
Lemma startup_registers_both_handlers_then_polls_witness :
  handlers (snd (main (Demo.env (Some "e30=") [Demo.silabo]) initial_world)) =
    bot_handlers
      {| llm := {| chat_api_key := Some "sk" |};
         retriever :=
           {| indexed :=
                [{| page_content := "texto de 4";
                    metadata := [("source", "/tmp/tmp0.pdf")] |}];
              embedding_function := {| embeddings_api_key := Some "sk" |} |} |}.
Proof.
  rewrite (proj1 (startup_registers_both_handlers_then_polls
                    (Demo.env (Some "e30=") [Demo.silabo]) initial_world
                    [{| page_content := "texto de 4";
                        metadata := [("source", "/tmp/tmp0.pdf")] |}]
                    (add_tmpfile
                       (add_log initial_world
                          (LogRecord INFO "🔍 Cargando documentos desde Google Drive..."))
                       {| tmp_name := "/tmp/tmp0.pdf"; tmp_suffix := ".pdf" |})
                    {| llm := {| chat_api_key := Some "sk" |};
                       retriever :=
                         {| indexed :=
                              [{| page_content := "texto de 4";
                                  metadata := [("source", "/tmp/tmp0.pdf")] |}];
                            embedding_function :=
                              {| embeddings_api_key := Some "sk" |} |} |}
                    eq_refl ltac:(discriminate) ltac:(discriminate)
                    ltac:(unfold index_build_returns; do 3 eexists;
                          repeat split; reflexivity))).
  reflexivity.
Defined.

(** X10.  Whatever the collaborators do, [main] ends in one of two ways.
    Either it never calls [run_polling], and then it registered no handler
    and sent no reply; or it calls [run_polling] with exactly its two
    handlers registered after those there were and with no reply sent, and
    ends as that call ends.  [run_polling] is never called without both
    handlers. *)
Theorem main_registers_all_or_nothing env w :
  (handlers (snd (main env w)) = handlers w /\
   polling (snd (main env w)) = polling w /\
   replies (snd (main env w)) = replies w) \/
  (exists qa_chain at_polling,
     main env w = run_polling env at_polling /\
     handlers at_polling = handlers w ++ bot_handlers qa_chain /\
     polling at_polling = polling w /\
     replies at_polling = replies w).
Proof.
  pose proof (grows_get_documents_from_drive env (DRIVE_FOLDER_ID env)
                (add_log w (LogRecord INFO "🔍 Cargando documentos desde Google Drive...")))
    as (_ & _ & Hh & Hp & Hr).
  unfold main.
  rewrite (bind_Normal _ _ w tt
             (add_log w (LogRecord INFO "🔍 Cargando documentos desde Google Drive...")))
    by reflexivity.
  unfold bind, call, logger_info, logger_error, logger, add_handler.
  destruct (get_documents_from_drive env (DRIVE_FOLDER_ID env) _)
    as [[documents|e|] w1]; simpl in Hh, Hp, Hr; simpl; auto.
  destruct documents as [|doc documents']; simpl; auto.
  destruct (split_documents env 1000 100 (doc :: documents')) as [|text texts];
    simpl; auto.
  destruct (OpenAIEmbeddings env _) as [embedding|e]; simpl; auto.
  destruct (FAISS_from_documents env _ _) as [vectorstore|e]; simpl; auto.
  destruct (ChatOpenAI env _) as [chat|e]; simpl; auto.
  destruct (from_chain_type env _ _) as [qa_chain|e]; simpl; auto.
  destruct (ApplicationBuilder_build env _) as [[]|e]; simpl; auto.
  right. exists qa_chain. eexists. split; [reflexivity|].
  unfold bot_handlers. simpl. rewrite Hh, <- !app_assoc. auto.
Qed.

(** ** Questions: what leaves the handler, what it does *)

(** X12.  An exception leaves the message handler in two cases only: the
    update has no message, and it is the exception of the read of
    [update.message.text], raised before anything was logged or sent; or the
    transport raised it for the fixed error message.  No exception of the
    chain, and no exception of the transport for the answer, leaves the
    handler. *)
Theorem handler_raises_only_with_error_reply env qa_chain u w e w' :
  handle_message_callback env qa_chain u w = (Raised e, w') ->
  (u = update_without_message /\
   e = Exception "'NoneType' object has no attribute 'text'" /\ w' = w) \/
  ((exists update, u = update_with_message update) /\
   reply_text env "Ocurrió un error al procesar tu pregunta." = Raises e).
Proof.
  destruct u as [update|]; simpl.
  - intros H. right. split; [eauto|]. revert H.
    unfold handle_message, bind at 1, logger_info, logger, try_except, bind at 1, call.
    destruct (ainvoke env qa_chain _) as [r|e0]; simpl.
    + unfold update_message_reply_text at 1.
      destruct (reply_text env (default _ _)) as [[]|e1]; simpl; [discriminate|].
      unfold bind, logger_error, logger, update_message_reply_text.
      destruct (reply_text env "Ocurrió un error al procesar tu pregunta.") as [[]|e2];
        simpl; intros H; inversion H; reflexivity.
    + unfold bind, logger_error, logger, update_message_reply_text.
      destruct (reply_text env "Ocurrió un error al procesar tu pregunta.") as [[]|e2];
        simpl; intros H; inversion H; reflexivity.
  - unfold call. simpl. intros H. inversion H. left. auto.
Qed.

(** With the transport down, the exception that leaves the handler is the
    one of the transport, not the one of the chain. *)
Lemma handler_raises_only_with_error_reply_witness :
  reply_text (Faulty.with_reply_text (Demo.env None []) Faulty.transport_down)
    "Ocurrió un error al procesar tu pregunta." =
    Raises (Exception "Timed out").
Proof.
  destruct (handler_raises_only_with_error_reply
              (Faulty.with_reply_text (Demo.env None []) Faulty.transport_down)
              Demo.qa_chain (update_with_message {| message_text := "hola" |})
              initial_world (Exception "Timed out")
              (add_reply
                 (add_log
                    (add_log initial_world (LogRecord INFO "🧠 Pregunta recibida: hola"))
                    (LogRecord ERROR "❌ Error al responder: rate limit"))
                 "Ocurrió un error al procesar tu pregunta.")
              eq_refl) as [[H _]|[_ H]]; [discriminate H | exact H].
Defined.

(** X13.  The effects of one call of the message handler.  It touches
    neither the handlers, nor the polling state, nor the temporary files.
    On an update without a message it raises at once: nothing is logged and
    nothing is sent.  On an update with a message it logs the question
    first, and then either sends one reply and logs nothing more, or logs
    one ERROR record and ends with the fixed error message, having sent at
    most two replies. *)
Theorem one_question_one_or_two_replies env qa_chain u w :
  let w' := snd (handle_message_callback env qa_chain u w) in
  handlers w' = handlers w /\
  polling w' = polling w /\
  tmpfiles w' = tmpfiles w /\
  match u with
  | update_without_message =>
      handle_message_callback env qa_chain u w =
        (Raised (Exception "'NoneType' object has no attribute 'text'"), w)
  | update_with_message update =>
      exists sent logged,
        replies w' = replies w ++ sent /\
        log w' =
          log w ++
          LogRecord INFO ("🧠 Pregunta recibida: " +:+ message_text update) :: logged /\
        ((logged = [] /\ length sent = 1) \/
         (exists r,
            logged = [r] /\ levelname r = ERROR /\
            last sent = Some "Ocurrió un error al procesar tu pregunta." /\
            length sent <= 2))
  end.
Proof.
  destruct u as [update|]; simpl; [|repeat split].
  unfold handle_message, bind at 1, logger_info, logger, try_except, bind at 1, call.
  destruct (ainvoke env qa_chain _) as [r|e0]; simpl.
  - unfold update_message_reply_text at 1.
    destruct (reply_text env (default _ _)) as [[]|e1]; simpl.
    + repeat split. exists [default "No encontré información." (r !! "result")], [].
      repeat split. left. auto.
    + repeat split.
      exists [default "No encontré información." (r !! "result");
              "Ocurrió un error al procesar tu pregunta."].
      eexists. rewrite <- !app_assoc. repeat split. right. eexists. repeat split. simpl. lia.
  - repeat split. exists ["Ocurrió un error al procesar tu pregunta."].
    eexists. rewrite <- !app_assoc. repeat split. right. eexists. repeat split. simpl. lia.
Qed.
